(** * PTZ camera controller: a shallow embedding and its properties

    The repository holds two variants of one ONVIF pan-tilt-zoom controller:
    [ptz_controller.py] (a text menu, [run_cli]) and
    [ptz_control_with_keyboard.py] (a key-driven loop, [run_keyboard]).
    Both define the same class [PTZController]; they differ in how the
    velocity limits are read at construction, in what [set_preset] prints,
    and in the exception handling of their command loops.

    Python floats are IEEE 754 binary64 numbers; they are modelled by Rocq's
    primitive floats, which are the same format with the same rounding. *)

From Stdlib Require Import Bool List String Ascii ZArith Lia.
From Stdlib Require Import Floats DecimalString.
Import ListNotations.

Set Implicit Arguments.
Set Warnings "-inexact-float".

Local Open Scope string_scope.
Local Open Scope list_scope.

(** ** Python's built-in [min] and [max] on two floats

    CPython's [min(a, b)] starts from [a] and replaces it by [b] only when
    [b < a]; [max(a, b)] replaces [a] by [b] only when [b > a].  On ties and
    on unordered operands (NaN) the first argument is returned. *)

Module Py.

Definition min (a b : float) : float := if (b <? a)%float then b else a.

Definition max (a b : float) : float := if (a <? b)%float then b else a.

End Py.

(** ** Python values the code inspects dynamically

    The code probes responses with [hasattr], [getattr] and [is not None], so
    an attribute is modelled with three states: the object has no such
    attribute, the attribute holds [None], or it holds a value. *)

Inductive attr (A : Type) : Type :=
| Absent
| PyNone
| Has (a : A).

Arguments Absent {A}.
Arguments PyNone {A}.

(** [hasattr(o, name)] *)
Definition hasattr {A} (a : attr A) : bool :=
  match a with Absent => false | _ => true end.

(** Truth value of a list-valued attribute: [None] and the empty list are
    false. *)
Definition truthy {A} (a : attr (list A)) : bool :=
  match a with Has (_ :: _) => true | _ => false end.

(** ** Exceptions

    [ClientError] stands for whatever the ONVIF client library raises when a
    request does not go through (transport error, SOAP fault); it derives
    from [Exception].  [KeyboardInterrupt] and [SystemExit] derive from
    [BaseException] only, so [except Exception] lets them pass. *)

Inductive exn : Type :=
| ClientError (what : string)
| AttributeError (name : string)
| RuntimeError (msg : string)
| EOFError
| KeyboardInterrupt
| SystemExit (code : Z).

Definition is_Exception (e : exn) : bool :=
  match e with
  | KeyboardInterrupt | SystemExit _ => false
  | _ => true
  end.

(** ** Data model *)

Record CameraConfig : Type := {
  ip : string;
  port : Z;
  username : string;
  password : string;
  wsdl_dir : option string
}.

(** [CameraConfig()] with the dataclass defaults. *)
Definition CameraConfig_default : CameraConfig :=
  {| ip := "192.168.1.13"; port := 80; username := "admin";
     password := "qazWSX((00"; wsdl_dir := None |}.

Module PTZConfiguration.
Record t : Type := { token : string }.
End PTZConfiguration.

Module Profile.
Record t : Type := {
  token : string;
  PTZConfiguration : option PTZConfiguration.t
}.
End Profile.

Module FloatRange.
Record t : Type := { Min : float; Max : float }.
End FloatRange.

Module Space2D.
Record t : Type := { XRange : attr FloatRange.t; YRange : attr FloatRange.t }.
End Space2D.

Module Space1D.
Record t : Type := { XRange : attr FloatRange.t }.
End Space1D.

Module Spaces.
Record t : Type := {
  PanTiltVelocitySpace : attr (list Space2D.t);
  ZoomVelocitySpace : attr (list Space1D.t)
}.
End Spaces.

Module ConfigurationOptions.
Record t : Type := { Spaces : attr Spaces.t }.
End ConfigurationOptions.

(** The dictionary assigned to [request_continuous.Velocity]:
    [{"PanTilt": {"x": .., "y": ..}, "Zoom": {"x": ..}}]. *)
Module Velocity.
Record t : Type := { PanTilt_x : float; PanTilt_y : float; Zoom_x : float }.
End Velocity.

(** The request objects made by [ptz.create_type]: a field is [None] until
    the controller assigns it. *)
Module ContinuousMoveRequest.
Record t : Type := { ProfileToken : option string; Velocity : option Velocity.t }.
End ContinuousMoveRequest.

Module StopRequest.
Record t : Type := {
  ProfileToken : option string;
  PanTilt : option bool;
  Zoom : option bool
}.
End StopRequest.

Module GotoPresetRequest.
Record t : Type := { ProfileToken : option string; PresetToken : option string }.
End GotoPresetRequest.

Module SetPresetRequest.
Record t : Type := { ProfileToken : option string; PresetName : option string }.
End SetPresetRequest.

Module SetPresetResponse.
Record t : Type := { PresetToken : attr string }.
End SetPresetResponse.

Module Preset.
Record t : Type := { token : string; Name : attr string }.
End Preset.

(** The attributes of a [PTZController] object that the methods read or
    write.  The service handles ([camera], [media], [ptz]) are the external
    client, reached through [invoke] below; [cfg_opts] is written once in
    [__init__] and never read again, and is not kept. *)
Module PTZController.
Record t : Type := {
  config : CameraConfig;
  profile : Profile.t;
  request_continuous : ContinuousMoveRequest.t;
  request_stop : StopRequest.t;
  request_gotopreset : GotoPresetRequest.t;
  request_setpreset : SetPresetRequest.t;
  max_pan_speed : float;
  max_tilt_speed : float;
  max_zoom_speed : float
}.

Definition set_request_continuous (r : ContinuousMoveRequest.t) (c : t) : t :=
  {| config := config c; profile := profile c;
     request_continuous := r; request_stop := request_stop c;
     request_gotopreset := request_gotopreset c;
     request_setpreset := request_setpreset c;
     max_pan_speed := max_pan_speed c; max_tilt_speed := max_tilt_speed c;
     max_zoom_speed := max_zoom_speed c |}.

Definition set_request_stop (r : StopRequest.t) (c : t) : t :=
  {| config := config c; profile := profile c;
     request_continuous := request_continuous c; request_stop := r;
     request_gotopreset := request_gotopreset c;
     request_setpreset := request_setpreset c;
     max_pan_speed := max_pan_speed c; max_tilt_speed := max_tilt_speed c;
     max_zoom_speed := max_zoom_speed c |}.

Definition set_request_gotopreset (r : GotoPresetRequest.t) (c : t) : t :=
  {| config := config c; profile := profile c;
     request_continuous := request_continuous c; request_stop := request_stop c;
     request_gotopreset := r;
     request_setpreset := request_setpreset c;
     max_pan_speed := max_pan_speed c; max_tilt_speed := max_tilt_speed c;
     max_zoom_speed := max_zoom_speed c |}.

Definition set_request_setpreset (r : SetPresetRequest.t) (c : t) : t :=
  {| config := config c; profile := profile c;
     request_continuous := request_continuous c; request_stop := request_stop c;
     request_gotopreset := request_gotopreset c;
     request_setpreset := r;
     max_pan_speed := max_pan_speed c; max_tilt_speed := max_tilt_speed c;
     max_zoom_speed := max_zoom_speed c |}.
End PTZController.

(** ** The external collaborators

    Every call that leaves the program is a [call]: the constructor and the
    methods of the ONVIF client, and [time.sleep].  [reply c] is the type of
    what call [c] returns. *)

Inductive call : Type :=
| ONVIFCamera (ip : string) (port : Z) (username password : string)
              (wsdl_dir : option string)
| create_media_service
| create_ptz_service
| GetProfiles
| create_type (name : string)
| GetConfigurationOptions (ConfigurationToken : string)
| ContinuousMove (req : ContinuousMoveRequest.t)
| Stop (req : StopRequest.t)
| GotoPreset (req : GotoPresetRequest.t)
| SetPreset (req : SetPresetRequest.t)
| GetPresets (ProfileToken : string)
| sleep (secs : float).

Definition reply (c : call) : Type :=
  match c with
  | GetProfiles => list Profile.t
  | GetConfigurationOptions _ => option ConfigurationOptions.t
  | SetPreset _ => option SetPresetResponse.t
  | GetPresets _ => list Preset.t
  | _ => unit
  end.

(** What a call returned, in one type. *)
Inductive value : Type :=
| VUnit
| VProfiles (l : list Profile.t)
| VOptions (o : option ConfigurationOptions.t)
| VPresetResponse (o : option SetPresetResponse.t)
| VPresets (l : list Preset.t).

Definition to_value (c : call) : reply c -> value :=
  match c return reply c -> value with
  | GetProfiles => VProfiles
  | GetConfigurationOptions _ => VOptions
  | SetPreset _ => VPresetResponse
  | GetPresets _ => VPresets
  | _ => fun _ => VUnit
  end.

Inductive answer (A : Type) : Type :=
| Returns (a : A)
| Raises (e : exn).

Arguments Raises {A} e.

(** One entry of the call log: the call, and what it returned or raised. *)
Record event : Type := { ev_call : call; ev_answer : answer value }.

(** The environment answers each call; its answer may depend on everything
    that was called before. *)
Definition Env : Type := list event -> forall c : call, answer (reply c).

(** What the operator gives to one [input] call: a line, or Ctrl-C. *)
Inductive stdin_item : Type :=
| Line (s : string)
| CtrlC.

(** What the program shares with the outside: the environment, the log of
    calls made so far (oldest first), the texts written to the console, the
    lines still to be read by [input], and the key bytes still to be read by
    [msvcrt.getch]. *)
Record IOState : Type := {
  env : Env;
  trace : list event;
  stdout : list string;
  stdin : list stdin_item;
  kbd : list ascii
}.

Record World : Type := { self : PTZController.t; io : IOState }.

(** ** Computations: state, exceptions, and loops that have not returned *)

Inductive outcome (A : Type) : Type :=
| Ok (a : A)
| Raise (e : exn)
| Pending.

Arguments Raise {A} e.
Arguments Pending {A}.

Definition M (S A : Type) : Type := S -> outcome A * S.

Definition ret {S A} (a : A) : M S A := fun s => (Ok a, s).

Definition raise {S A} (e : exn) : M S A := fun s => (Raise e, s).

Definition pending {S A} : M S A := fun s => (Pending, s).

Definition bind {S A B} (m : M S A) (k : A -> M S B) : M S B :=
  fun s =>
    match m s with
    | (Ok a, s') => k a s'
    | (Raise e, s') => (Raise e, s')
    | (Pending, s') => (Pending, s')
    end.

Notation "x <- m ;; k" := (bind m (fun x => k))
  (at level 61, m at next level, right associativity).
Notation "m ;;; k" := (bind m (fun _ => k))
  (at level 61, right associativity).

(** [try: body except <classes>: handler e] *)
Definition try_except {S A} (body : M S A) (caught : exn -> bool)
    (handler : exn -> M S A) : M S A :=
  fun s =>
    match body s with
    | (Raise e, s') => if caught e then handler e s' else (Raise e, s')
    | r => r
    end.

(** [try: body finally: cleanup].  The cleanup runs whether the body returned
    or raised; an exception of the cleanup replaces the body's. *)
Definition try_finally {S A} (body : M S A) (cleanup : M S unit) : M S A :=
  fun s =>
    match body s with
    | (Pending, s') => (Pending, s')
    | (r, s') =>
        match cleanup s' with
        | (Ok _, s'') => (r, s'')
        | (Raise e, s'') => (Raise e, s'')
        | (Pending, s'') => (Pending, s'')
        end
    end.

(** Runs a computation on a local piece of state and returns the state it
    ends with. *)
Definition run_local {S S' A} (s0 : S') (m : M S' A) : M S S' :=
  fun s =>
    match m s0 with
    | (Ok _, s') => (Ok s', s)
    | (Raise e, _) => (Raise e, s)
    | (Pending, _) => (Pending, s)
    end.

(** ** Console, keyboard and client calls *)

Definition log (c : call) (r : answer value) (s : IOState) : IOState :=
  {| env := env s;
     trace := trace s ++ [{| ev_call := c; ev_answer := r |}];
     stdout := stdout s; stdin := stdin s; kbd := kbd s |}.

(** Makes call [c]: the environment's answer is returned or raised, and the
    call is logged either way. *)
Definition invoke (c : call) : M IOState (reply c) :=
  fun s =>
    match env s (trace s) c with
    | Returns a => (Ok a, log c (Returns (to_value c a)) s)
    | Raises e => (Raise e, log c (Raises e) s)
    end.

Definition write (text : string) (s : IOState) : IOState :=
  {| env := env s; trace := trace s; stdout := stdout s ++ [text];
     stdin := stdin s; kbd := kbd s |}.

Definition set_stdin (l : list stdin_item) (s : IOState) : IOState :=
  {| env := env s; trace := trace s; stdout := stdout s;
     stdin := l; kbd := kbd s |}.

Definition set_kbd (l : list ascii) (s : IOState) : IOState :=
  {| env := env s; trace := trace s; stdout := stdout s;
     stdin := stdin s; kbd := l |}.

Definition print (text : string) : M IOState unit :=
  fun s => (Ok tt, write text s).

(** [input(prompt)]: writes the prompt and reads one line; end of input
    raises [EOFError], Ctrl-C raises [KeyboardInterrupt]. *)
Definition input (prompt : string) : M IOState string :=
  fun s =>
    match stdin s with
    | [] => (Raise EOFError, write prompt s)
    | Line l :: rest => (Ok l, set_stdin rest (write prompt s))
    | CtrlC :: rest => (Raise KeyboardInterrupt, set_stdin rest (write prompt s))
    end.

(** [msvcrt.kbhit()] *)
Definition kbhit : M IOState bool :=
  fun s => (Ok (match kbd s with [] => false | _ :: _ => true end), s).

(** [msvcrt.getch()]: blocks until a key is there. *)
Definition getch : M IOState ascii :=
  fun s =>
    match kbd s with
    | [] => (Pending, s)
    | k :: rest => (Ok k, set_kbd rest s)
    end.

Definition liftIO {A} (m : M IOState A) : M World A :=
  fun w => let (r, i) := m (io w) in (r, {| self := self w; io := i |}).

Definition get_self : M World PTZController.t :=
  fun w => (Ok (self w), w).

Definition set_self (c : PTZController.t) : M World unit :=
  fun w => (Ok tt, {| self := c; io := io w |}).

(** Runs the methods of a controller object held in a local variable. *)
Definition with_controller {A} (c : PTZController.t) (m : M World A)
    : M IOState A :=
  fun i => let (r, w) := m {| self := c; io := i |} in (r, io w).

(** ** Python string helpers *)

Definition nl : string := String "010" EmptyString.

(** Whitespace in the ASCII range, as [str.isspace] has it. *)
Definition isspace (c : ascii) : bool :=
  let n := nat_of_ascii c in
  ((9 <=? n) && (n <=? 13) || (28 <=? n) && (n <=? 32))%nat.

Fixpoint lstrip (s : string) : string :=
  match s with
  | EmptyString => EmptyString
  | String c r => if isspace c then lstrip r else s
  end.

Fixpoint rstrip (s : string) : string :=
  match s with
  | EmptyString => EmptyString
  | String c r =>
      match rstrip r with
      | EmptyString => if isspace c then EmptyString else String c EmptyString
      | r' => String c r'
      end
  end.

(** [s.strip()] *)
Definition strip (s : string) : string := rstrip (lstrip s).

(** Truth value of a string: the empty string is false. *)
Definition nonempty (s : string) : bool :=
  match s with EmptyString => false | String _ _ => true end.

(** [ch.decode(errors="ignore").lower()] for a one-byte [ch]: a byte above
    127 is no valid UTF-8 on its own and is dropped. *)
Definition decode_lower (ch : ascii) : string :=
  let n := nat_of_ascii ch in
  if (128 <=? n)%nat then EmptyString
  else if ((65 <=? n) && (n <=? 90))%nat
       then String (ascii_of_nat (n + 32)) EmptyString
       else String ch EmptyString.

(** [str(v)] inside an f-string, for a value that is a string or [None]. *)
Definition str_of (v : option string) : string :=
  match v with Some s => s | None => "None" end.

Definition str_of_int (z : Z) : string := NilZero.string_of_int (Z.to_int z).

(** [getattr(p, 'Name', '')] formatted in an f-string. *)
Definition Name_or_empty (p : Preset.t) : string :=
  match Preset.Name p with
  | Absent => ""
  | PyNone => "None"
  | Has s => s
  end.

(** ** Reading a range maximum: [<space>.<name>.Max] *)

Definition range_Max {S} (name : string) (r : attr FloatRange.t) : M S float :=
  match r with
  | Absent => raise (AttributeError name)
  | PyNone => raise (AttributeError "Max")
  | Has rg => ret (FloatRange.Max rg)
  end.

(** The three speed attributes while [__init__] assigns them. *)
Record Speeds : Type := { pan_speed : float; tilt_speed : float; zoom_speed : float }.

Definition default_speeds : Speeds :=
  {| pan_speed := 0.5; tilt_speed := 0.5; zoom_speed := 0.5 |}.

Definition set_pan_speed (v : float) : M Speeds unit :=
  fun s => (Ok tt, {| pan_speed := v; tilt_speed := tilt_speed s;
                      zoom_speed := zoom_speed s |}).

Definition set_tilt_speed (v : float) : M Speeds unit :=
  fun s => (Ok tt, {| pan_speed := pan_speed s; tilt_speed := v;
                      zoom_speed := zoom_speed s |}).

Definition set_zoom_speed (v : float) : M Speeds unit :=
  fun s => (Ok tt, {| pan_speed := pan_speed s; tilt_speed := tilt_speed s;
                      zoom_speed := v |}).

Inductive loop_ctl : Type :=
| Continue
| Break.

(** ** ptz_controller.py *)

Module ptz_controller.

Import PTZController.

(** The [try] block of [__init__] (lines 94-101).  The speed attributes were
    set to 0.5 before it; each assignment that is reached overwrites one. *)
Definition read_limits (cfg_opts : option ConfigurationOptions.t) : M Speeds unit :=
  match cfg_opts with
  | Some opts =>
      match ConfigurationOptions.Spaces opts with
      | Has spaces =>
          match Spaces.PanTiltVelocitySpace spaces with
          | Has (pt :: _) =>
              x <- range_Max "XRange" (Space2D.XRange pt) ;;
              set_pan_speed x ;;;
              y <- range_Max "YRange" (Space2D.YRange pt) ;;
              set_tilt_speed y
          | _ => ret tt
          end ;;;
          match Spaces.ZoomVelocitySpace spaces with
          | Has (z :: _) =>
              x <- range_Max "XRange" (Space1D.XRange z) ;;
              set_zoom_speed x
          | _ => ret tt
          end
      | _ => ret tt
      end
  | None => ret tt
  end.

Definition __init__ (config : CameraConfig) : M IOState PTZController.t :=
  match wsdl_dir config with
  | Some d =>
      if nonempty d
      then invoke (ONVIFCamera (ip config) (port config) (username config)
                     (password config) (Some d))
      else invoke (ONVIFCamera (ip config) (port config) (username config)
                     (password config) None)
  | None => invoke (ONVIFCamera (ip config) (port config) (username config)
                      (password config) None)
  end ;;;
  invoke create_media_service ;;;
  invoke create_ptz_service ;;;
  profiles <- invoke GetProfiles ;;
  match profiles with
  | [] => raise (RuntimeError "No media profiles found on camera.")
  | profile :: _ =>
      invoke (create_type "ContinuousMove") ;;;
      let request_continuous :=
        {| ContinuousMoveRequest.ProfileToken := Some (Profile.token profile);
           ContinuousMoveRequest.Velocity := None |} in
      invoke (create_type "Stop") ;;;
      let request_stop :=
        {| StopRequest.ProfileToken := Some (Profile.token profile);
           StopRequest.PanTilt := None; StopRequest.Zoom := None |} in
      invoke (create_type "GotoPreset") ;;;
      let request_gotopreset :=
        {| GotoPresetRequest.ProfileToken := Some (Profile.token profile);
           GotoPresetRequest.PresetToken := None |} in
      invoke (create_type "SetPreset") ;;;
      let request_setpreset :=
        {| SetPresetRequest.ProfileToken := Some (Profile.token profile);
           SetPresetRequest.PresetName := None |} in
      ConfigurationToken <-
        match Profile.PTZConfiguration profile with
        | Some c => ret (PTZConfiguration.token c)
        | None => raise (AttributeError "token")
        end ;;
      cfg_opts <- invoke (GetConfigurationOptions ConfigurationToken) ;;
      speeds <- run_local default_speeds
                  (try_except (read_limits cfg_opts) is_Exception
                     (fun _ => ret tt)) ;;
      ret {| config := config; profile := profile;
             request_continuous := request_continuous;
             request_stop := request_stop;
             request_gotopreset := request_gotopreset;
             request_setpreset := request_setpreset;
             max_pan_speed := pan_speed speeds;
             max_tilt_speed := tilt_speed speeds;
             max_zoom_speed := zoom_speed speeds |}
  end.

Definition _normalized_speed (v max_speed : float) : float :=
  let v := Py.max (-1.0) (Py.min 1.0 v) in
  (v * max_speed)%float.

Definition continuous_move (pan tilt zoom : float) : M World unit :=
  c <- get_self ;;
  let velocity :=
    {| Velocity.PanTilt_x := _normalized_speed pan (max_pan_speed c);
       Velocity.PanTilt_y := _normalized_speed tilt (max_tilt_speed c);
       Velocity.Zoom_x := _normalized_speed zoom (max_zoom_speed c) |} in
  let req :=
    {| ContinuousMoveRequest.ProfileToken :=
         ContinuousMoveRequest.ProfileToken (request_continuous c);
       ContinuousMoveRequest.Velocity := Some velocity |} in
  set_self (set_request_continuous req c) ;;;
  liftIO (invoke (ContinuousMove req)).

Definition stop (pan_tilt zoom : bool) : M World unit :=
  c <- get_self ;;
  let req :=
    {| StopRequest.ProfileToken := StopRequest.ProfileToken (request_stop c);
       StopRequest.PanTilt := Some pan_tilt;
       StopRequest.Zoom := Some zoom |} in
  set_self (set_request_stop req c) ;;;
  liftIO (invoke (Stop req)).

Definition go_to_preset (preset_token : string) : M World unit :=
  c <- get_self ;;
  let req :=
    {| GotoPresetRequest.ProfileToken :=
         GotoPresetRequest.ProfileToken (request_gotopreset c);
       GotoPresetRequest.PresetToken := Some preset_token |} in
  set_self (set_request_gotopreset req c) ;;;
  liftIO (invoke (GotoPreset req)).

(** Returns the value of [resp.PresetToken] (a string, or [None] when the
    attribute holds [None]), or the empty string after a warning. *)
Definition set_preset (name : string) : M World (option string) :=
  c <- get_self ;;
  let req :=
    {| SetPresetRequest.ProfileToken :=
         SetPresetRequest.ProfileToken (request_setpreset c);
       SetPresetRequest.PresetName := Some name |} in
  set_self (set_request_setpreset req c) ;;;
  resp <- liftIO (invoke (SetPreset req)) ;;
  match resp with
  | Some r =>
      match SetPresetResponse.PresetToken r with
      | Has tok => ret (Some tok)
      | PyNone => ret None
      | Absent =>
          liftIO (print "Warning: No PresetToken returned from camera.") ;;;
          ret (Some "")
      end
  | None =>
      liftIO (print "Warning: No PresetToken returned from camera.") ;;;
      ret (Some "")
  end.

Definition list_presets : M World (list Preset.t) :=
  c <- get_self ;;
  presets <- liftIO (invoke (GetPresets (Profile.token (profile c)))) ;;
  ret presets.

Definition menu : string :=
  nl ++ "PTZ Control Menu" ++ nl ++
  "----------------" ++ nl ++
  "Movement (continuous):" ++ nl ++
  "  1) Pan LEFT" ++ nl ++
  "  2) Pan RIGHT" ++ nl ++
  "  3) Tilt UP" ++ nl ++
  "  4) Tilt DOWN" ++ nl ++
  "  5) Zoom IN" ++ nl ++
  "  6) Zoom OUT" ++ nl ++
  "  7) STOP all motion" ++ nl ++
  nl ++
  "Presets:" ++ nl ++
  "  8) List presets" ++ nl ++
  "  9) Go to preset" ++ nl ++
  "  10) Save preset" ++ nl ++
  nl ++
  "Other:" ++ nl ++
  "  0) Quit" ++ nl ++
  nl ++
  "Enter choice: ".

Definition move_speed : float := 0.5.
Definition move_duration_sec : float := 0.5.

(** The body of the [if]/[elif] chain of [run_cli] for one menu choice. *)
Definition dispatch (choice : string) : M World loop_ctl :=
  if choice =? "0" then
    liftIO (print "Stopping and exiting...") ;;;
    stop true true ;;;
    ret Break
  else if choice =? "1" then
    liftIO (print "Panning left...") ;;;
    continuous_move (- move_speed) 0.0 0.0 ;;;
    liftIO (invoke (sleep move_duration_sec)) ;;;
    stop true true ;;;
    ret Continue
  else if choice =? "2" then
    liftIO (print "Panning right...") ;;;
    continuous_move move_speed 0.0 0.0 ;;;
    liftIO (invoke (sleep move_duration_sec)) ;;;
    stop true true ;;;
    ret Continue
  else if choice =? "3" then
    liftIO (print "Tilting up...") ;;;
    continuous_move 0.0 move_speed 0.0 ;;;
    liftIO (invoke (sleep move_duration_sec)) ;;;
    stop true true ;;;
    ret Continue
  else if choice =? "4" then
    liftIO (print "Tilting down...") ;;;
    continuous_move 0.0 (- move_speed) 0.0 ;;;
    liftIO (invoke (sleep move_duration_sec)) ;;;
    stop true true ;;;
    ret Continue
  else if choice =? "5" then
    liftIO (print "Zooming in...") ;;;
    continuous_move 0.0 0.0 move_speed ;;;
    liftIO (invoke (sleep move_duration_sec)) ;;;
    stop false true ;;;
    ret Continue
  else if choice =? "6" then
    liftIO (print "Zooming out...") ;;;
    continuous_move 0.0 0.0 (- move_speed) ;;;
    liftIO (invoke (sleep move_duration_sec)) ;;;
    stop false true ;;;
    ret Continue
  else if choice =? "7" then
    liftIO (print "Stopping motion...") ;;;
    stop true true ;;;
    ret Continue
  else if choice =? "8" then
    presets <- list_presets ;;
    match presets with
    | [] => liftIO (print "No presets found.")
    | _ :: _ =>
        liftIO (print (nl ++ "Presets:")) ;;;
        fold_left
          (fun acc p =>
             acc ;;;
             liftIO (print ("  Token: " ++ Preset.token p ++ ", Name: "
                              ++ Name_or_empty p)))
          presets (ret tt) ;;;
        liftIO (print "")
    end ;;;
    ret Continue
  else if choice =? "9" then
    line <- liftIO (input "Enter preset token: ") ;;
    let token := strip line in
    if nonempty token then
      liftIO (print ("Going to preset " ++ token ++ "...")) ;;;
      go_to_preset token ;;;
      ret Continue
    else
      liftIO (print "Preset token cannot be empty.") ;;;
      ret Continue
  else if choice =? "10" then
    line <- liftIO (input "Enter preset name (optional): ") ;;
    let name := strip line in
    token <- set_preset name ;;
    liftIO (print ("Preset saved. Token: " ++ str_of token)) ;;;
    ret Continue
  else
    liftIO (print "Invalid choice. Try again.") ;;;
    ret Continue.

(** One round of the [while True] loop: read a choice, then act on it. *)
Definition iteration : M World loop_ctl :=
  choice <-
    try_except
      (line <- liftIO (input menu) ;; ret (strip line))
      (fun e => match e with EOFError | KeyboardInterrupt => true | _ => false end)
      (fun _ =>
         liftIO (print (nl ++ "Exiting...")) ;;;
         stop true true ;;;
         raise (SystemExit 0)) ;;
  dispatch choice.

(** The loop, cut after [fuel] rounds: a loop that is still running then is
    [Pending]. *)
Fixpoint loop (fuel : nat) : M World unit :=
  match fuel with
  | O => pending
  | S n =>
      ctl <- iteration ;;
      match ctl with
      | Break => ret tt
      | Continue => loop n
      end
  end.

Definition run_cli (fuel : nat) : M IOState unit :=
  let config := CameraConfig_default in
  print ("Connecting to camera at " ++ ip config ++ ":"
           ++ str_of_int (port config) ++ " as " ++ username config ++ "...") ;;;
  controller <- __init__ config ;;
  print ("Connected." ++ nl) ;;;
  with_controller controller
    (loop fuel ;;;
     stop true true).

End ptz_controller.

(** ** ptz_control_with_keyboard.py *)

Module ptz_control_with_keyboard.

Import PTZController.

(** The condition of the [if] inside the [try] block of [__init__]
    (lines 104-115): when it holds, the first pan/tilt space and the first
    zoom space, whose ranges the assignments then read. *)
Definition limits_offered (cfg_opts : option ConfigurationOptions.t)
    : option (Space2D.t * Space1D.t) :=
  match cfg_opts with
  | Some opts =>
      match ConfigurationOptions.Spaces opts with
      | Has spaces =>
          match Spaces.PanTiltVelocitySpace spaces with
          | Has (pt :: _) =>
              if hasattr (Space2D.XRange pt) && hasattr (Space2D.YRange pt)
              then
                match Spaces.ZoomVelocitySpace spaces with
                | Has (z :: _) =>
                    if hasattr (Space1D.XRange z) then Some (pt, z) else None
                | _ => None
                end
              else None
          | _ => None
          end
      | _ => None
      end
  | None => None
  end.

(** The [try] block of [__init__] (lines 100-122); it yields the three
    speeds it assigns. *)
Definition read_limits (profile : Profile.t) : M IOState Speeds :=
  ConfigurationToken <-
    match Profile.PTZConfiguration profile with
    | Some c => ret (PTZConfiguration.token c)
    | None => raise (AttributeError "token")
    end ;;
  cfg_opts <- invoke (GetConfigurationOptions ConfigurationToken) ;;
  match limits_offered cfg_opts with
  | Some (pt, z) =>
      pan <- range_Max "XRange" (Space2D.XRange pt) ;;
      tilt <- range_Max "YRange" (Space2D.YRange pt) ;;
      zoom <- range_Max "XRange" (Space1D.XRange z) ;;
      ret {| pan_speed := pan; tilt_speed := tilt; zoom_speed := zoom |}
  | None => ret default_speeds
  end.

Definition __init__ (config : CameraConfig) : M IOState PTZController.t :=
  match wsdl_dir config with
  | Some d =>
      if nonempty d
      then invoke (ONVIFCamera (ip config) (port config) (username config)
                     (password config) (Some d))
      else invoke (ONVIFCamera (ip config) (port config) (username config)
                     (password config) None)
  | None => invoke (ONVIFCamera (ip config) (port config) (username config)
                      (password config) None)
  end ;;;
  invoke create_media_service ;;;
  invoke create_ptz_service ;;;
  profiles <- invoke GetProfiles ;;
  match profiles with
  | [] => raise (RuntimeError "No media profiles found on camera.")
  | profile :: _ =>
      invoke (create_type "ContinuousMove") ;;;
      let request_continuous :=
        {| ContinuousMoveRequest.ProfileToken := Some (Profile.token profile);
           ContinuousMoveRequest.Velocity := None |} in
      invoke (create_type "Stop") ;;;
      let request_stop :=
        {| StopRequest.ProfileToken := Some (Profile.token profile);
           StopRequest.PanTilt := None; StopRequest.Zoom := None |} in
      invoke (create_type "GotoPreset") ;;;
      let request_gotopreset :=
        {| GotoPresetRequest.ProfileToken := Some (Profile.token profile);
           GotoPresetRequest.PresetToken := None |} in
      invoke (create_type "SetPreset") ;;;
      let request_setpreset :=
        {| SetPresetRequest.ProfileToken := Some (Profile.token profile);
           SetPresetRequest.PresetName := None |} in
      speeds <- try_except (read_limits profile) is_Exception
                  (fun _ => ret default_speeds) ;;
      ret {| config := config; profile := profile;
             request_continuous := request_continuous;
             request_stop := request_stop;
             request_gotopreset := request_gotopreset;
             request_setpreset := request_setpreset;
             max_pan_speed := pan_speed speeds;
             max_tilt_speed := tilt_speed speeds;
             max_zoom_speed := zoom_speed speeds |}
  end.

Definition _normalized_speed (v max_speed : float) : float :=
  let v := Py.max (-1.0) (Py.min 1.0 v) in
  (v * max_speed)%float.

Definition continuous_move (pan tilt zoom : float) : M World unit :=
  c <- get_self ;;
  let velocity :=
    {| Velocity.PanTilt_x := _normalized_speed pan (max_pan_speed c);
       Velocity.PanTilt_y := _normalized_speed tilt (max_tilt_speed c);
       Velocity.Zoom_x := _normalized_speed zoom (max_zoom_speed c) |} in
  let req :=
    {| ContinuousMoveRequest.ProfileToken :=
         ContinuousMoveRequest.ProfileToken (request_continuous c);
       ContinuousMoveRequest.Velocity := Some velocity |} in
  set_self (set_request_continuous req c) ;;;
  liftIO (invoke (ContinuousMove req)).

Definition stop (pan_tilt zoom : bool) : M World unit :=
  c <- get_self ;;
  let req :=
    {| StopRequest.ProfileToken := StopRequest.ProfileToken (request_stop c);
       StopRequest.PanTilt := Some pan_tilt;
       StopRequest.Zoom := Some zoom |} in
  set_self (set_request_stop req c) ;;;
  liftIO (invoke (Stop req)).

Definition go_to_preset (preset_token : string) : M World unit :=
  c <- get_self ;;
  let req :=
    {| GotoPresetRequest.ProfileToken :=
         GotoPresetRequest.ProfileToken (request_gotopreset c);
       GotoPresetRequest.PresetToken := Some preset_token |} in
  set_self (set_request_gotopreset req c) ;;;
  liftIO (invoke (GotoPreset req)).

(** Returns the value of [resp.PresetToken] (a string, or [None] when the
    attribute holds [None]), or the empty string. *)
Definition set_preset (name : string) : M World (option string) :=
  c <- get_self ;;
  let req :=
    {| SetPresetRequest.ProfileToken :=
         SetPresetRequest.ProfileToken (request_setpreset c);
       SetPresetRequest.PresetName := Some name |} in
  set_self (set_request_setpreset req c) ;;;
  resp <- liftIO (invoke (SetPreset req)) ;;
  match resp with
  | Some r =>
      match SetPresetResponse.PresetToken r with
      | Has tok => ret (Some tok)
      | PyNone => ret None
      | Absent => ret (Some "")
      end
  | None => ret (Some "")
  end.

Definition list_presets : M World (list Preset.t) :=
  c <- get_self ;;
  presets <- liftIO (invoke (GetPresets (Profile.token (profile c)))) ;;
  ret presets.

Definition move_speed : float := 1.0.
Definition move_duration_sec : float := 0.3.

(** The branch of [run_keyboard] for the second byte of an arrow key. *)
Definition on_arrow (ch2 : ascii) : M World unit :=
  if Ascii.eqb ch2 "H" then
    liftIO (print "Tilt up (↑)") ;;;
    continuous_move 0.0 move_speed 0.0 ;;;
    liftIO (invoke (sleep move_duration_sec)) ;;;
    stop true true
  else if Ascii.eqb ch2 "P" then
    liftIO (print "Tilt down (↓)") ;;;
    continuous_move 0.0 (- move_speed) 0.0 ;;;
    liftIO (invoke (sleep move_duration_sec)) ;;;
    stop true true
  else if Ascii.eqb ch2 "K" then
    liftIO (print "Pan left (←)") ;;;
    continuous_move (- move_speed) 0.0 0.0 ;;;
    liftIO (invoke (sleep move_duration_sec)) ;;;
    stop true true
  else if Ascii.eqb ch2 "M" then
    liftIO (print "Pan right (→)") ;;;
    continuous_move move_speed 0.0 0.0 ;;;
    liftIO (invoke (sleep move_duration_sec)) ;;;
    stop true true
  else ret tt.

(** The [if]/[elif] chain of [run_keyboard] for a regular key [ch]. *)
Definition on_key (ch : ascii) : M World loop_ctl :=
  let key := decode_lower ch in
  if Ascii.eqb ch "027" then
    liftIO (print "ESC pressed. Exiting...") ;;;
    stop true true ;;;
    ret Break
  else if key =? "w" then
    liftIO (print "Tilt up (W)") ;;;
    continuous_move 0.0 move_speed 0.0 ;;;
    liftIO (invoke (sleep move_duration_sec)) ;;;
    stop true true ;;;
    ret Continue
  else if key =? "s" then
    liftIO (print "Tilt down (S)") ;;;
    continuous_move 0.0 (- move_speed) 0.0 ;;;
    liftIO (invoke (sleep move_duration_sec)) ;;;
    stop true true ;;;
    ret Continue
  else if key =? "a" then
    liftIO (print "Pan left (A)") ;;;
    continuous_move (- move_speed) 0.0 0.0 ;;;
    liftIO (invoke (sleep move_duration_sec)) ;;;
    stop true true ;;;
    ret Continue
  else if key =? "d" then
    liftIO (print "Pan right (D)") ;;;
    continuous_move move_speed 0.0 0.0 ;;;
    liftIO (invoke (sleep move_duration_sec)) ;;;
    stop true true ;;;
    ret Continue
  else if key =? "q" then
    liftIO (print "Zoom in (Q)") ;;;
    continuous_move 0.0 0.0 move_speed ;;;
    liftIO (invoke (sleep move_duration_sec)) ;;;
    stop false true ;;;
    ret Continue
  else if key =? "e" then
    liftIO (print "Zoom out (E)") ;;;
    continuous_move 0.0 0.0 (- move_speed) ;;;
    liftIO (invoke (sleep move_duration_sec)) ;;;
    stop false true ;;;
    ret Continue
  else if Ascii.eqb ch " " then
    liftIO (print "Stop (SPACE)") ;;;
    stop true true ;;;
    ret Continue
  else if key =? "p" then
    liftIO (print "Listing presets...") ;;;
    presets <- list_presets ;;
    match presets with
    | [] => liftIO (print "  No presets found.")
    | _ :: _ =>
        fold_left
          (fun acc p =>
             acc ;;;
             liftIO (print ("  Token: " ++ Preset.token p ++ ", Name: "
                              ++ Name_or_empty p)))
          presets (ret tt)
    end ;;;
    ret Continue
  else if key =? "g" then
    stop true true ;;;
    line <- liftIO (input (nl ++ "Enter preset token to go to: ")) ;;
    let token := strip line in
    (if nonempty token then
       liftIO (print ("Going to preset " ++ token ++ "...")) ;;;
       go_to_preset token
     else
       liftIO (print "No token entered.")) ;;;
    liftIO (print "Back to keyboard control...") ;;;
    ret Continue
  else if key =? "o" then
    stop true true ;;;
    line <- liftIO (input (nl ++ "Enter name for new preset (optional): ")) ;;
    let name := strip line in
    token <- set_preset name ;;
    liftIO (print ("Preset saved. Token: " ++ str_of token)) ;;;
    liftIO (print "Back to keyboard control...") ;;;
    ret Continue
  else ret Continue.

(** One round of the [while True] loop.  After an arrow key the loop
    [continue]s at once; otherwise it sleeps 0.01 s before the next round. *)
Definition iteration : M World loop_ctl :=
  hit <- liftIO kbhit ;;
  if (hit : bool) then
    ch <- liftIO getch ;;
    if Ascii.eqb ch "224" then
      ch2 <- liftIO getch ;;
      on_arrow ch2 ;;;
      ret Continue
    else
      ctl <- on_key ch ;;
      match ctl with
      | Break => ret Break
      | Continue => liftIO (invoke (sleep 0.01)) ;;; ret Continue
      end
  else
    liftIO (invoke (sleep 0.01)) ;;;
    ret Continue.

(** The loop, cut after [fuel] rounds: a loop that is still running then is
    [Pending]. *)
Fixpoint loop (fuel : nat) : M World unit :=
  match fuel with
  | O => pending
  | S n =>
      ctl <- iteration ;;
      match ctl with
      | Break => ret tt
      | Continue => loop n
      end
  end.

(** The [try] ... [except KeyboardInterrupt] ... [finally] statement of
    [run_keyboard] around the loop. *)
Definition guarded_loop (fuel : nat) : M World unit :=
  try_finally
    (try_except (loop fuel)
       (fun e => match e with KeyboardInterrupt => true | _ => false end)
       (fun _ =>
          liftIO (print (nl ++ "KeyboardInterrupt. Stopping and exiting..."))))
    (stop true true).

Definition run_keyboard (fuel : nat) : M IOState unit :=
  let config := CameraConfig_default in
  print ("Connecting to camera at " ++ ip config ++ ":"
           ++ str_of_int (port config) ++ " as " ++ username config ++ "...") ;;;
  controller <- __init__ config ;;
  print ("Connected." ++ nl) ;;;
  print "Keyboard PTZ control" ;;;
  print "--------------------" ;;;
  print "W / Up Arrow    - Tilt up" ;;;
  print "S / Down Arrow  - Tilt down" ;;;
  print "A / Left Arrow  - Pan left" ;;;
  print "D / Right Arrow - Pan right" ;;;
  print "Q               - Zoom in" ;;;
  print "E               - Zoom out" ;;;
  print "SPACE           - Stop motion" ;;;
  print "P               - List presets" ;;;
  print "G               - Go to preset (prompt)" ;;;
  print "O               - Save preset" ;;;
  print "ESC             - Quit" ;;;
  print "" ;;;
  print "Make sure this console window is focused." ;;;
  print "Press keys to control the camera..." ;;;
  with_controller controller (guarded_loop fuel).

End ptz_control_with_keyboard.

(** * Notions of the specification

    The definitions below follow the words of the specification; the
    properties compare the code with them. *)

(** The boundary of [[-1, 1]] nearest to a value outside it. *)
Definition nearest_bound (v : float) : float :=
  if (v <? -1)%float then (-1)%float else 1%float.

(** The response fields a preset token can be missing from: the response
    is [None], or it has no [PresetToken] attribute. *)
Definition lacks_token (resp : option SetPresetResponse.t) : bool :=
  match resp with
  | None => true
  | Some r => negb (hasattr (SetPresetResponse.PresetToken r))
  end.

(** The value of the [PresetToken] field of a response that has the field:
    a string, or [None]. *)
Definition token_field (resp : option SetPresetResponse.t)
    : option (option string) :=
  match resp with
  | Some r =>
      match SetPresetResponse.PresetToken r with
      | Has tok => Some (Some tok)
      | PyNone => Some None
      | Absent => None
      end
  | None => None
  end.

Definition missing_token_warning : string :=
  "Warning: No PresetToken returned from camera.".

(** The maxima a response reports for the pan/tilt pair and for zoom: those
    of its first pan/tilt velocity space and of its first zoom velocity
    space, where the response has them. *)
Definition pan_tilt_maxima (o : option ConfigurationOptions.t)
    : option (float * float) :=
  match o with
  | Some opts =>
      match ConfigurationOptions.Spaces opts with
      | Has spaces =>
          match Spaces.PanTiltVelocitySpace spaces with
          | Has (pt :: _) =>
              match Space2D.XRange pt, Space2D.YRange pt with
              | Has rx, Has ry => Some (FloatRange.Max rx, FloatRange.Max ry)
              | _, _ => None
              end
          | _ => None
          end
      | _ => None
      end
  | None => None
  end.

Definition zoom_maximum (o : option ConfigurationOptions.t) : option float :=
  match o with
  | Some opts =>
      match ConfigurationOptions.Spaces opts with
      | Has spaces =>
          match Spaces.ZoomVelocitySpace spaces with
          | Has (z :: _) =>
              match Space1D.XRange z with
              | Has rx => Some (FloatRange.Max rx)
              | _ => None
              end
          | _ => None
          end
      | _ => None
      end
  | None => None
  end.

(** A well-formed response contains the velocity ranges of all three axes;
    [reported_maxima] is then their maxima, and [None] for every other
    response. *)
Definition reported_maxima (o : option ConfigurationOptions.t) : option Speeds :=
  match pan_tilt_maxima o, zoom_maximum o with
  | Some (p, t), Some z =>
      Some {| pan_speed := p; tilt_speed := t; zoom_speed := z |}
  | _, _ => None
  end.

(** The response offers no pan/tilt (no zoom) velocity space at all: it is
    [None], has no [Spaces], or the space list is missing, [None] or
    empty. *)
Definition no_pan_tilt_space (o : option ConfigurationOptions.t) : bool :=
  match o with
  | Some opts =>
      match ConfigurationOptions.Spaces opts with
      | Has spaces => negb (truthy (Spaces.PanTiltVelocitySpace spaces))
      | _ => true
      end
  | None => true
  end.

Definition no_zoom_space (o : option ConfigurationOptions.t) : bool :=
  match o with
  | Some opts =>
      match ConfigurationOptions.Spaces opts with
      | Has spaces => negb (truthy (Spaces.ZoomVelocitySpace spaces))
      | _ => true
      end
  | None => true
  end.

(** The three limits of a controller. *)
Definition limits (c : PTZController.t) : Speeds :=
  {| pan_speed := PTZController.max_pan_speed c;
     tilt_speed := PTZController.max_tilt_speed c;
     zoom_speed := PTZController.max_zoom_speed c |}.

(** The last call of a log is the velocity-limits query, answered [ans]. *)
Definition limits_query_answered (tr : list event) (ans : answer value) : Prop :=
  exists pre tok,
    tr = pre ++ [{| ev_call := GetConfigurationOptions tok; ev_answer := ans |}].

(** The public operations of a controller, with their arguments. *)
Inductive operation : Type :=
| Do_continuous_move (pan tilt zoom : float)
| Do_stop (pan_tilt zoom : bool)
| Do_go_to_preset (preset_token : string)
| Do_set_preset (name : string)
| Do_list_presets.

(** The state in which one operation leaves the controller and the outside,
    whether it returned or raised, for each of the two variants. *)
Definition perform_cli (o : operation) (w : World) : World :=
  match o with
  | Do_continuous_move pan tilt zoom =>
      snd (ptz_controller.continuous_move pan tilt zoom w)
  | Do_stop pan_tilt zoom => snd (ptz_controller.stop pan_tilt zoom w)
  | Do_go_to_preset tok => snd (ptz_controller.go_to_preset tok w)
  | Do_set_preset name => snd (ptz_controller.set_preset name w)
  | Do_list_presets => snd (ptz_controller.list_presets w)
  end.

Definition perform_keyboard (o : operation) (w : World) : World :=
  match o with
  | Do_continuous_move pan tilt zoom =>
      snd (ptz_control_with_keyboard.continuous_move pan tilt zoom w)
  | Do_stop pan_tilt zoom =>
      snd (ptz_control_with_keyboard.stop pan_tilt zoom w)
  | Do_go_to_preset tok => snd (ptz_control_with_keyboard.go_to_preset tok w)
  | Do_set_preset name => snd (ptz_control_with_keyboard.set_preset name w)
  | Do_list_presets => snd (ptz_control_with_keyboard.list_presets w)
  end.

(** A session: operations performed one after the other on one controller,
    the caller going on after an operation that raised. *)
Definition session (perform : operation -> World -> World)
    (ops : list operation) (w : World) : World :=
  fold_left (fun w o => perform o w) ops w.

(** The [ProfileToken] fields of the four shared request objects. *)
Definition request_tokens (c : PTZController.t) : list (option string) :=
  [ ContinuousMoveRequest.ProfileToken (PTZController.request_continuous c);
    StopRequest.ProfileToken (PTZController.request_stop c);
    GotoPresetRequest.ProfileToken (PTZController.request_gotopreset c);
    SetPresetRequest.ProfileToken (PTZController.request_setpreset c) ].

(** The request that a logged call sent targets profile token [tok]. *)
Definition targets (tok : string) (e : event) : Prop :=
  match ev_call e with
  | ContinuousMove req => ContinuousMoveRequest.ProfileToken req = Some tok
  | Stop req => StopRequest.ProfileToken req = Some tok
  | GotoPreset req => GotoPresetRequest.ProfileToken req = Some tok
  | SetPreset req => SetPresetRequest.ProfileToken req = Some tok
  | GetPresets t => t = tok
  | _ => True
  end.

(** The two variants of the controller: the constructor of each with its
    operations. *)
Definition variants
    : list ((CameraConfig -> M IOState PTZController.t)
            * (operation -> World -> World)) :=
  [ (ptz_controller.__init__, perform_cli);
    (ptz_control_with_keyboard.__init__, perform_keyboard) ].

(** An environment in which every call returns, as a mock client does. *)
Definition calls_return (e : Env) : Prop :=
  forall tr c, exists a, e tr c = Returns a.

(** The pan and tilt requested by the pan/tilt entries of the menu of
    [run_cli], by the pan/tilt keys of [run_keyboard] and by its arrow keys
    (second byte), as the menu text and the module docstring list them. *)
Definition menu_pan_tilt : list (string * (float * float)) :=
  [("1", (-0.5, 0)); ("2", (0.5, 0)); ("3", (0, 0.5)); ("4", (0, -0.5))]%float.

Definition key_pan_tilt : list (ascii * (float * float)) :=
  [("w", (0, 1)); ("W", (0, 1)); ("s", (0, -1)); ("S", (0, -1));
   ("a", (-1, 0)); ("A", (-1, 0)); ("d", (1, 0)); ("D", (1, 0))]%char%float.

Definition arrow_pan_tilt : list (ascii * (float * float)) :=
  [("H", (0, 1)); ("P", (0, -1)); ("K", (-1, 0)); ("M", (1, 0))]%char%float.

(** The calls of one pan/tilt burst of controller [c], all returning: one
    [ContinuousMove] with the normalized velocity, the wait, and one [Stop]
    with [PanTilt] and [Zoom] both true. *)
Definition burst_calls (c : PTZController.t) (pan tilt duration : float)
    : list event :=
  [ {| ev_call :=
         ContinuousMove
           {| ContinuousMoveRequest.ProfileToken :=
                ContinuousMoveRequest.ProfileToken
                  (PTZController.request_continuous c);
              ContinuousMoveRequest.Velocity :=
                Some {| Velocity.PanTilt_x :=
                          ptz_controller._normalized_speed pan
                            (PTZController.max_pan_speed c);
                        Velocity.PanTilt_y :=
                          ptz_controller._normalized_speed tilt
                            (PTZController.max_tilt_speed c);
                        Velocity.Zoom_x :=
                          ptz_controller._normalized_speed 0
                            (PTZController.max_zoom_speed c) |} |};
       ev_answer := Returns VUnit |};
    {| ev_call := sleep duration; ev_answer := Returns VUnit |};
    {| ev_call :=
         Stop {| StopRequest.ProfileToken :=
                   StopRequest.ProfileToken (PTZController.request_stop c);
                 StopRequest.PanTilt := Some true;
                 StopRequest.Zoom := Some true |};
       ev_answer := Returns VUnit |} ].

(** Events of the call log that the burst claims speak of. *)
Definition is_Stop (e : event) : bool :=
  match ev_call e with Stop _ => true | _ => false end.

Definition is_ContinuousMove (e : event) : bool :=
  match ev_call e with ContinuousMove _ => true | _ => false end.

(** The menu choices of [run_cli] and the keys of [run_keyboard] that start
    a movement burst. *)
Definition burst_choices : list string := ["1"; "2"; "3"; "4"; "5"; "6"].

Definition burst_keys : list ascii :=
  ["w"; "W"; "s"; "S"; "a"; "A"; "d"; "D"; "q"; "Q"; "e"; "E"]%char.

(** [m] makes exactly one call to the outside, raises exactly when that call
    raises, and returns when it returns. *)
Definition one_call_no_swallow {A} (m : M World A) : Prop :=
  forall w, exists ev,
    trace (io (snd (m w))) = trace (io w) ++ [ev]
    /\ match ev_answer ev with
       | Raises e => fst (m w) = Raise e
       | Returns _ => exists a, fst (m w) = Ok a
       end.

(** What operation [o] may change in a controller [c] that becomes [c'] by a
    call [sent]: only the request object of its own kind, which then is the
    request that was sent.  [list_presets] changes nothing. *)
Definition writes_only_own_request (o : operation) (sent : call)
    (c c' : PTZController.t) : Prop :=
  match o with
  | Do_continuous_move _ _ _ =>
      sent = ContinuousMove (PTZController.request_continuous c')
      /\ c' = PTZController.set_request_continuous
                (PTZController.request_continuous c') c
  | Do_stop _ _ =>
      sent = Stop (PTZController.request_stop c')
      /\ c' = PTZController.set_request_stop (PTZController.request_stop c') c
  | Do_go_to_preset _ =>
      sent = GotoPreset (PTZController.request_gotopreset c')
      /\ c' = PTZController.set_request_gotopreset
                (PTZController.request_gotopreset c') c
  | Do_set_preset _ =>
      sent = SetPreset (PTZController.request_setpreset c')
      /\ c' = PTZController.set_request_setpreset
                (PTZController.request_setpreset c') c
  | Do_list_presets =>
      sent = GetPresets (Profile.token (PTZController.profile c)) /\ c' = c
  end.

(** The zoom requested by the zoom entries of the menu of [run_cli] and by
    the zoom keys of [run_keyboard]. *)
Definition menu_zoom : list (string * float) :=
  [("5", 0.5); ("6", -0.5)]%float.

Definition key_zoom : list (ascii * float) :=
  [("q", 1); ("Q", 1); ("e", -1); ("E", -1)]%char%float.

(** The calls of one zoom burst of controller [c], all returning: the move
    on the zoom axis alone, the wait, and a [Stop] of the zoom axis alone. *)
Definition zoom_burst_calls (c : PTZController.t) (zoom duration : float)
    : list event :=
  [ {| ev_call :=
         ContinuousMove
           {| ContinuousMoveRequest.ProfileToken :=
                ContinuousMoveRequest.ProfileToken
                  (PTZController.request_continuous c);
              ContinuousMoveRequest.Velocity :=
                Some {| Velocity.PanTilt_x :=
                          ptz_controller._normalized_speed 0
                            (PTZController.max_pan_speed c);
                        Velocity.PanTilt_y :=
                          ptz_controller._normalized_speed 0
                            (PTZController.max_tilt_speed c);
                        Velocity.Zoom_x :=
                          ptz_controller._normalized_speed zoom
                            (PTZController.max_zoom_speed c) |} |};
       ev_answer := Returns VUnit |};
    {| ev_call := sleep duration; ev_answer := Returns VUnit |};
    {| ev_call :=
         Stop {| StopRequest.ProfileToken :=
                   StopRequest.ProfileToken (PTZController.request_stop c);
                 StopRequest.PanTilt := Some false;
                 StopRequest.Zoom := Some true |};
       ev_answer := Returns VUnit |} ].


(** The choices that the menu of [run_cli] knows. *)
Definition menu_choices : list string :=
  ["0"; "1"; "2"; "3"; "4"; "5"; "6"; "7"; "8"; "9"; "10"].

(** The line that both loops print for one preset. *)
Definition preset_line (p : Preset.t) : string :=
  "  Token: " ++ Preset.token p ++ ", Name: " ++ Name_or_empty p.

(** The console after [texts] have been written to it, one after the
    other. *)
Definition writes (texts : list string) (s : IOState) : IOState :=
  fold_left (fun s t => write t s) texts s.

(** A [Stop] of both axis groups, as [controller.stop()] sends it. *)
Definition stop_all (c : PTZController.t) : call :=
  Stop {| StopRequest.ProfileToken :=
            StopRequest.ProfileToken (PTZController.request_stop c);
          StopRequest.PanTilt := Some true;
          StopRequest.Zoom := Some true |}.

(** The key bytes that [run_keyboard] acts on, apart from the arrow prefix:
    ESC, the space bar and the nine letters, in either case. *)
Definition bound_keys : list ascii :=
  ["027"; " "; "w"; "W"; "s"; "S"; "a"; "A"; "d"; "D"; "q"; "Q"; "e"; "E";
   "p"; "P"; "g"; "G"; "o"; "O"]%char.

(** The second bytes of the four arrow keys. *)
Definition arrow_codes : list ascii := ["H"; "P"; "K"; "M"]%char.

(** The pause of the keyboard loop between two polls, as logged when it
    returns. *)
Definition idle_pause : event :=
  {| ev_call := sleep 0.01; ev_answer := Returns VUnit |}.

(** The calls with which both constructors set a session up, all returning:
    the connection (the WSDL directory is passed on only when it is a
    non-empty string), the two services, the profiles and the four request
    objects. *)
Definition setup_log (config : CameraConfig) (profiles : list Profile.t)
    : list event :=
  [ {| ev_call :=
         ONVIFCamera (ip config) (port config) (username config)
           (password config)
           match wsdl_dir config with
           | Some d => if nonempty d then Some d else None
           | None => None
           end;
       ev_answer := Returns VUnit |};
    {| ev_call := create_media_service; ev_answer := Returns VUnit |};
    {| ev_call := create_ptz_service; ev_answer := Returns VUnit |};
    {| ev_call := GetProfiles; ev_answer := Returns (VProfiles profiles) |};
    {| ev_call := create_type "ContinuousMove"; ev_answer := Returns VUnit |};
    {| ev_call := create_type "Stop"; ev_answer := Returns VUnit |};
    {| ev_call := create_type "GotoPreset"; ev_answer := Returns VUnit |};
    {| ev_call := create_type "SetPreset"; ev_answer := Returns VUnit |} ].

(** * Sample cameras and sessions, for evaluating the code *)

Definition sample_profile : Profile.t :=
  {| Profile.token := "profile_1";
     Profile.PTZConfiguration :=
       Some {| PTZConfiguration.token := "ptz_cfg_1" |} |}.

Definition sample_controller : PTZController.t :=
  {| PTZController.config := CameraConfig_default;
     PTZController.profile := sample_profile;
     PTZController.request_continuous :=
       {| ContinuousMoveRequest.ProfileToken := Some "profile_1";
          ContinuousMoveRequest.Velocity := None |};
     PTZController.request_stop :=
       {| StopRequest.ProfileToken := Some "profile_1";
          StopRequest.PanTilt := None; StopRequest.Zoom := None |};
     PTZController.request_gotopreset :=
       {| GotoPresetRequest.ProfileToken := Some "profile_1";
          GotoPresetRequest.PresetToken := None |};
     PTZController.request_setpreset :=
       {| SetPresetRequest.ProfileToken := Some "profile_1";
          SetPresetRequest.PresetName := None |};
     PTZController.max_pan_speed := 0.7;
     PTZController.max_tilt_speed := 0.6;
     PTZController.max_zoom_speed := 0.4 |}.

Definition range_to (m : float) : attr FloatRange.t :=
  Has {| FloatRange.Min := (- m)%float; FloatRange.Max := m |}.

(** A response with every velocity range: 0.7, 0.6 and 0.4. *)
Definition full_options : ConfigurationOptions.t :=
  {| ConfigurationOptions.Spaces :=
       Has {| Spaces.PanTiltVelocitySpace :=
                Has [{| Space2D.XRange := range_to 0.7;
                        Space2D.YRange := range_to 0.6 |}];
              Spaces.ZoomVelocitySpace :=
                Has [{| Space1D.XRange := range_to 0.4 |}] |} |}.

(** A response with the pan/tilt ranges and no zoom space. *)
Definition pan_tilt_only_options : ConfigurationOptions.t :=
  {| ConfigurationOptions.Spaces :=
       Has {| Spaces.PanTiltVelocitySpace :=
                Has [{| Space2D.XRange := range_to 0.7;
                        Space2D.YRange := range_to 0.6 |}];
              Spaces.ZoomVelocitySpace := Absent |} |}.

(** A camera that answers every call; it reports [options] as its
    configuration options, [resp] to [SetPreset] and no saved preset. *)
Definition camera (options : option ConfigurationOptions.t)
    (resp : option SetPresetResponse.t) : Env :=
  fun _ c =>
    match c return answer (reply c) with
    | GetProfiles => Returns [sample_profile]
    | GetConfigurationOptions _ => Returns options
    | SetPreset _ => Returns resp
    | GetPresets _ => Returns []
    | _ => Returns tt
    end.

(** The same camera, except that it refuses every [ContinuousMove]. *)
Definition camera_refusing_moves : Env :=
  fun tr c =>
    match c return answer (reply c) with
    | ContinuousMove _ => Raises (ClientError "ContinuousMove refused")
    | c' => camera (Some full_options) None tr c'
    end.

(** The same camera, except that its velocity-limits query raises. *)
Definition camera_without_limits : Env :=
  fun tr c =>
    match c return answer (reply c) with
    | GetConfigurationOptions _ =>
        Raises (ClientError "GetConfigurationOptions failed")
    | c' => camera None None tr c'
    end.


(** The same camera, with an operator who presses Ctrl-C during the first
    pause of the program: that [sleep] raises [KeyboardInterrupt]. *)
Definition interrupted_pause : Env :=
  fun tr c =>
    match c return answer (reply c) with
    | sleep _ => Raises KeyboardInterrupt
    | c' => camera None None tr c'
    end.

(** A camera that cannot be reached: the connection itself raises. *)
Definition camera_unreachable : Env :=
  fun tr c =>
    match c return answer (reply c) with
    | ONVIFCamera _ _ _ _ _ => Raises (ClientError "connection refused")
    | c' => camera None None tr c'
    end.

(** A fresh console: nothing called or written yet, [lines] waiting on
    standard input and [keys] in the keyboard buffer. *)
Definition console (e : Env) (lines : list stdin_item) (keys : list ascii)
    : IOState :=
  {| env := e; trace := []; stdout := []; stdin := lines; kbd := keys |}.

(** * Properties *)

(** ** Proof automation *)

(** Unfolds one controller method down to the environment's answer. *)
Ltac unfold_method :=
  unfold ptz_controller.continuous_move,
    ptz_control_with_keyboard.continuous_move,
    ptz_controller.stop, ptz_control_with_keyboard.stop,
    ptz_controller.go_to_preset, ptz_control_with_keyboard.go_to_preset,
    ptz_controller.set_preset, ptz_control_with_keyboard.set_preset,
    ptz_controller.list_presets, ptz_control_with_keyboard.list_presets,
    bind, ret, get_self, set_self, liftIO, invoke, print;
  cbn -[ptz_controller._normalized_speed
        ptz_control_with_keyboard._normalized_speed].

(** Lets the environment answer the calls met in the goal, given that its
    calls all return. *)
Ltac answer_calls H :=
  repeat (match goal with
          | |- context [env ?s ?tr ?c] =>
              let a := fresh "a" in
              let E := fresh "E" in
              destruct (H tr c) as [a E]; rewrite E; destruct a
          end;
          cbn -[ptz_controller._normalized_speed
                ptz_control_with_keyboard._normalized_speed]).

(** Evaluates [decode_lower] at the key bytes met in the goal. *)
Ltac decode_keys :=
  repeat match goal with
         | |- context [decode_lower ?c] =>
             let v := eval vm_compute in (decode_lower c) in
             change (decode_lower c) with v
         end.

(** Unfolds a constructor down to its first call, keeping the guarded
    limits block folded. *)
Ltac unfold_init :=
  unfold ptz_controller.__init__, ptz_control_with_keyboard.__init__,
    limits_query_answered, bind, ret, raise, invoke;
  cbn -[try_except run_local ptz_controller.read_limits
        ptz_control_with_keyboard.read_limits].

(** Lets the environment answer the next call either way. *)
Ltac next_call :=
  match goal with
  | |- context [env ?s ?t ?c] =>
      let E := fresh "E" in
      destruct (env s t c) eqn:E;
      cbn -[try_except run_local ptz_controller.read_limits
            ptz_control_with_keyboard.read_limits]
  end.

(** Closes a goal whose premises say that a log ends with an event that is
    not its last one. *)
Ltac no_such_end :=
  repeat split; intros;
  repeat match goal with H : exists _, _ |- _ => destruct H end;
  match goal with
  | H : _ ++ [_] = _ ++ [_] |- _ =>
      apply app_inj_tail in H; destruct H as [_ H]; discriminate H
  end.

(** Takes a response apart, down to its ranges. *)
Ltac split_options o :=
  let spaces := fresh "spaces" in
  let ptvs := fresh "ptvs" in
  let zvs := fresh "zvs" in
  let xr := fresh "xr" in
  let yr := fresh "yr" in
  let zr := fresh "zr" in
  destruct o as [[[| |[ptvs zvs]]]|]; cbn; trivial;
  destruct ptvs as [| |[|[xr yr] ?]]; cbn; trivial;
  try (destruct xr as [| |[? ?]]; cbn; trivial;
       destruct yr as [| |[? ?]]; cbn; trivial);
  destruct zvs as [| |[|[zr] ?]]; cbn; trivial;
  try (destruct zr as [| |[? ?]]; cbn; trivial).

(** Closes one case of the limits block of [ptz_controller.py]. *)
Ltac close_limits :=
  eexists; split; [reflexivity|];
  repeat split; intros; try discriminate; try congruence.

(** ** Binary64 comparison, from the specification of the primitives *)

Section FloatOrder.

Local Open Scope float_scope.

(** Swapping the operands of a comparison swaps its result. *)
Lemma SFcompare_swap (a b : spec_float) :
  SFcompare b a = option_map CompOpp (SFcompare a b).
Proof.
  destruct a as [sa|sa| |sa ma ea], b as [sb|sb| |sb mb eb]; simpl;
    try reflexivity;
    try (destruct sa; reflexivity);
    try (destruct sb; reflexivity);
    try (destruct sa, sb; reflexivity).
  change (Pos.compare_cont Eq ma mb) with (Pos.compare ma mb).
  change (Pos.compare_cont Eq mb ma) with (Pos.compare mb ma).
  rewrite (Z.compare_antisym ea eb), (Pos.compare_antisym ma mb).
  destruct sa, sb; try reflexivity;
    destruct (ea ?= eb)%Z; simpl; try reflexivity;
    destruct (ma ?= mb)%positive; reflexivity.
Qed.

Lemma ltb_asym (x y : float) : (x <? y) = true -> (y <? x) = false.
Proof.
  rewrite !ltb_spec. unfold SFltb.
  rewrite (SFcompare_swap (Prim2SF x) (Prim2SF y)).
  destruct (SFcompare (Prim2SF x) (Prim2SF y)) as [[| |]|]; simpl;
    discriminate || reflexivity.
Qed.

Lemma SFcompare_Eq_finite (a : spec_float) s m e :
  SFcompare a (S754_finite s m e) = Some Eq -> a = S754_finite s m e.
Proof.
  destruct a as [sa|sa| |sa ma ea]; simpl; try discriminate;
    try (destruct sa; discriminate); try (destruct s; discriminate).
  change (Pos.compare_cont Eq ma m) with (Pos.compare ma m).
  destruct sa, s; try discriminate;
    destruct (ea ?= e)%Z eqn:Ee; try discriminate;
    destruct (ma ?= m)%positive eqn:Em; try discriminate; intros _;
    apply Z.compare_eq in Ee; apply Pos.compare_eq in Em; congruence.
Qed.

(** A float that is [<=] a non-zero finite float without being [<] it is
    that float. *)
Lemma leb_not_ltb_eq (x y : float) s m e :
  Prim2SF y = S754_finite s m e ->
  (x <=? y) = true -> (x <? y) = false -> x = y.
Proof.
  intros Hy. rewrite leb_spec, ltb_spec. unfold SFleb, SFltb.
  destruct (SFcompare (Prim2SF x) (Prim2SF y)) as [[| |]|] eqn:E;
    try discriminate.
  intros _ _. apply Prim2SF_inj. rewrite Hy in *.
  now apply SFcompare_Eq_finite.
Qed.

Lemma leb_not_ltb_eq_l (x y : float) s m e :
  Prim2SF x = S754_finite s m e ->
  (x <=? y) = true -> (x <? y) = false -> x = y.
Proof.
  intros Hx. rewrite leb_spec, ltb_spec. unfold SFleb, SFltb.
  rewrite (SFcompare_swap (Prim2SF y) (Prim2SF x)).
  destruct (SFcompare (Prim2SF y) (Prim2SF x)) as [[| |]|] eqn:E;
    simpl; try discriminate.
  intros _ _. symmetry. apply Prim2SF_inj. rewrite Hx in *.
  now apply SFcompare_Eq_finite.
Qed.

Lemma Prim2SF_one : Prim2SF 1 = S754_finite false 4503599627370496 (-52)%Z.
Proof. vm_compute. reflexivity. Qed.

Lemma Prim2SF_minus_one :
  Prim2SF (-1) = S754_finite true 4503599627370496 (-52)%Z.
Proof. vm_compute. reflexivity. Qed.

(** Below [-1.0] is below [1.0]. *)
Lemma ltb_minus_one_one (v : float) : (v <? -1) = true -> (v <? 1) = true.
Proof.
  rewrite !ltb_spec. unfold SFltb.
  rewrite Prim2SF_one, Prim2SF_minus_one.
  destruct (Prim2SF v) as [s|s| |s m e]; cbn [SFcompare];
    try destruct s; try discriminate; reflexivity.
Qed.

(** The clamp [max(-1.0, min(1.0, v))] of both [_normalized_speed]s. *)
Lemma clamp_above (v : float) :
  (1 <? v) = true -> Py.max (-1) (Py.min 1 v) = 1.
Proof.
  intros H. unfold Py.min. rewrite (ltb_asym H). vm_compute. reflexivity.
Qed.

Lemma clamp_below (v : float) :
  (v <? -1) = true -> Py.max (-1) (Py.min 1 v) = -1.
Proof.
  intros H. unfold Py.min, Py.max.
  rewrite (ltb_minus_one_one H), (ltb_asym H). vm_compute. reflexivity.
Qed.

Lemma clamp_inside (v : float) :
  (-1 <=? v) = true -> (v <=? 1) = true -> Py.max (-1) (Py.min 1 v) = v.
Proof.
  intros Hlo Hhi. unfold Py.min, Py.max.
  destruct (v <? 1) eqn:E1.
  - destruct (-1 <? v) eqn:E2; [reflexivity|].
    exact (leb_not_ltb_eq_l Prim2SF_minus_one Hlo E2).
  - assert (v = 1) as -> by exact (leb_not_ltb_eq Prim2SF_one Hhi E1).
    vm_compute. reflexivity.
Qed.

End FloatOrder.

(** ** The normalization function *)

Section Normalization.

Local Open Scope float_scope.

(** C3. For every input outside [[-1, 1]] and every limit, both
    [_normalized_speed]s return what they return at the nearest boundary of
    the interval; [normalize(2.0, 0.5)] is [0.5] and [normalize(-5.0, 0.5)]
    is [-0.5].  The function has no failing case: the result is always a
    float. *)
Theorem normalized_speed_clamps_outside (v limit : float) :
  (v <? -1) = true \/ (1 <? v) = true ->
  ptz_controller._normalized_speed v limit
    = ptz_controller._normalized_speed (nearest_bound v) limit
  /\ ptz_control_with_keyboard._normalized_speed v limit
    = ptz_control_with_keyboard._normalized_speed (nearest_bound v) limit
  /\ ptz_controller._normalized_speed 2.0 0.5 = 0.5
  /\ ptz_controller._normalized_speed (-5.0) 0.5 = -0.5
  /\ ptz_control_with_keyboard._normalized_speed 2.0 0.5 = 0.5
  /\ ptz_control_with_keyboard._normalized_speed (-5.0) 0.5 = -0.5.
Proof.
  intros H.
  assert (Py.max (-1) (Py.min 1 v)
          = Py.max (-1) (Py.min 1 (nearest_bound v))) as E.
  { unfold nearest_bound. destruct H as [H | H].
    - rewrite H, (clamp_below H). vm_compute. reflexivity.
    - assert ((v <? -1) = false) as ->.
      { destruct (v <? -1) eqn:E; [|reflexivity].
        pose proof (ltb_minus_one_one E) as E1.
        pose proof (ltb_asym H) as E2. congruence. }
      rewrite (clamp_above H). vm_compute. reflexivity. }
  unfold ptz_controller._normalized_speed,
    ptz_control_with_keyboard._normalized_speed.
  rewrite E. repeat split; vm_compute; reflexivity.
Qed.

Lemma normalized_speed_clamps_outside_witness :
  ptz_controller._normalized_speed 7.5 0.25
    = ptz_controller._normalized_speed 1 0.25.
Proof.
  exact (proj1 (@normalized_speed_clamps_outside 7.5 0.25
                  (or_intror (eq_refl true)))).
Defined.

(** C4. For every input already in [[-1, 1]] and every limit, both
    [_normalized_speed]s return exactly [v * limit].  They are functions of
    their two arguments alone: they neither read nor change the controller
    or anything outside. *)
Theorem normalized_speed_scales_inside (v limit : float) :
  (-1 <=? v) = true -> (v <=? 1) = true ->
  ptz_controller._normalized_speed v limit = v * limit
  /\ ptz_control_with_keyboard._normalized_speed v limit = v * limit.
Proof.
  intros Hlo Hhi.
  unfold ptz_controller._normalized_speed,
    ptz_control_with_keyboard._normalized_speed.
  rewrite (clamp_inside Hlo Hhi). split; reflexivity.
Qed.

Lemma normalized_speed_scales_inside_witness :
  ptz_controller._normalized_speed (-0.5) 0.6 = -0.5 * 0.6
  /\ ptz_control_with_keyboard._normalized_speed (-0.5) 0.6 = -0.5 * 0.6.
Proof.
  exact (@normalized_speed_scales_inside (-0.5) 0.6 (eq_refl true)
           (eq_refl true)).
Defined.

(** C9. The [_normalized_speed] of [ptz_controller.py] and that of
    [ptz_control_with_keyboard.py] return the same result for every value
    and every limit. *)
Theorem normalized_speed_variants_agree (v max_speed : float) :
  ptz_controller._normalized_speed v max_speed
    = ptz_control_with_keyboard._normalized_speed v max_speed.
Proof. reflexivity. Qed.

End Normalization.

(** ** Single operations of the controller *)

Section Operations.

Import PTZController.
Local Open Scope float_scope.

(** C5. With limits 0.7, 0.6 and 0.4, [continuous_move(1.0, -0.5, 0.0)]
    makes exactly one call to the camera client: a [ContinuousMove] whose
    request carries the velocity [{pan: 0.7, tilt: -0.3, zoom: 0.0}]. *)
Theorem continuous_move_scenario (w : World) :
  max_pan_speed (self w) = 0.7 ->
  max_tilt_speed (self w) = 0.6 ->
  max_zoom_speed (self w) = 0.4 ->
  let req :=
    {| ContinuousMoveRequest.ProfileToken :=
         ContinuousMoveRequest.ProfileToken (request_continuous (self w));
       ContinuousMoveRequest.Velocity :=
         Some {| Velocity.PanTilt_x := 0.7; Velocity.PanTilt_y := -0.3;
                 Velocity.Zoom_x := 0.0 |} |} in
  (exists ans,
     trace (io (snd (ptz_controller.continuous_move 1.0 (-0.5) 0.0 w)))
     = trace (io w) ++ [{| ev_call := ContinuousMove req; ev_answer := ans |}])
  /\ (exists ans,
     trace (io (snd (ptz_control_with_keyboard.continuous_move 1.0 (-0.5) 0.0 w)))
     = trace (io w) ++ [{| ev_call := ContinuousMove req; ev_answer := ans |}]).
Proof.
  intros Hp Ht Hz req. subst req.
  split; unfold_method; rewrite Hp, Ht, Hz.
  - change (ptz_controller._normalized_speed 1 0.7) with 0.7.
    change (ptz_controller._normalized_speed (-0.5) 0.6) with (-0.3).
    change (ptz_controller._normalized_speed 0 0.4) with 0.
    destruct (env (io w) (trace (io w)) _); cbn; eexists; reflexivity.
  - change (ptz_control_with_keyboard._normalized_speed 1 0.7) with 0.7.
    change (ptz_control_with_keyboard._normalized_speed (-0.5) 0.6) with (-0.3).
    change (ptz_control_with_keyboard._normalized_speed 0 0.4) with 0.
    destruct (env (io w) (trace (io w)) _); cbn; eexists; reflexivity.
Qed.

Lemma continuous_move_scenario_witness :
  exists ans,
    trace (io (snd (ptz_controller.continuous_move 1.0 (-0.5) 0.0
                      {| self := sample_controller;
                         io := console (camera None None) [] [] |})))
    = [{| ev_call :=
            ContinuousMove
              {| ContinuousMoveRequest.ProfileToken := Some "profile_1"%string;
                 ContinuousMoveRequest.Velocity :=
                   Some {| Velocity.PanTilt_x := 0.7; Velocity.PanTilt_y := -0.3;
                           Velocity.Zoom_x := 0.0 |} |};
          ev_answer := ans |}].
Proof.
  exact (proj1 (@continuous_move_scenario
                  {| self := sample_controller;
                     io := console (camera None None) [] [] |}
                  eq_refl eq_refl eq_refl)).
Defined.

(** C8. [list_presets] returns exactly the sequence the camera client
    reports, in its order; when the camera reports no preset that is the
    empty sequence, returned normally. *)
Theorem list_presets_returns_reported (w : World) (l : list Preset.t) :
  env (io w) (trace (io w)) (GetPresets (Profile.token (profile (self w))))
    = Returns l ->
  fst (ptz_controller.list_presets w) = Ok l
  /\ fst (ptz_control_with_keyboard.list_presets w) = Ok l.
Proof.
  intros H. split; unfold_method; rewrite H; reflexivity.
Qed.

Lemma list_presets_returns_reported_witness :
  fst (ptz_controller.list_presets
         {| self := sample_controller;
            io := console (camera None None) [] [] |}) = Ok []
  /\ fst (ptz_control_with_keyboard.list_presets
         {| self := sample_controller;
            io := console (camera None None) [] [] |}) = Ok [].
Proof.
  exact (@list_presets_returns_reported
           {| self := sample_controller;
              io := console (camera None None) [] [] |} [] eq_refl).
Defined.

(** C7, as the code has it.  When the response to [SetPreset] is [None] or
    has no [PresetToken] field, [set_preset] returns the empty string and
    raises nothing; [ptz_controller.py] also prints one warning line, while
    [ptz_control_with_keyboard.py] writes nothing.  When the response has
    the field, its value is returned as it is. *)
Theorem set_preset_token_or_empty (w : World) (name : string)
    (resp : option SetPresetResponse.t) :
  env (io w) (trace (io w))
    (SetPreset
       {| SetPresetRequest.ProfileToken :=
            SetPresetRequest.ProfileToken (request_setpreset (self w));
          SetPresetRequest.PresetName := Some name |})
    = Returns resp ->
  (lacks_token resp = true ->
     fst (ptz_controller.set_preset name w) = Ok (Some ""%string)
     /\ stdout (io (snd (ptz_controller.set_preset name w)))
        = stdout (io w) ++ [missing_token_warning]
     /\ fst (ptz_control_with_keyboard.set_preset name w) = Ok (Some ""%string)
     /\ stdout (io (snd (ptz_control_with_keyboard.set_preset name w)))
        = stdout (io w))
  /\ (forall v, token_field resp = Some v ->
     fst (ptz_controller.set_preset name w) = Ok v
     /\ stdout (io (snd (ptz_controller.set_preset name w))) = stdout (io w)
     /\ fst (ptz_control_with_keyboard.set_preset name w) = Ok v
     /\ stdout (io (snd (ptz_control_with_keyboard.set_preset name w)))
        = stdout (io w)).
Proof.
  intros H. split.
  - intros L. unfold_method. rewrite H. cbn.
    destruct resp as [[[| |tok]]|]; try discriminate L; cbn; auto.
  - intros v F. unfold_method. rewrite H. cbn.
    destruct resp as [[[| |tok]]|]; try discriminate F;
      injection F as <-; cbn; auto.
Qed.

Lemma set_preset_token_or_empty_witness :
  fst (ptz_controller.set_preset "home"
         {| self := sample_controller;
            io := console (camera None None) [] [] |}) = Ok (Some ""%string).
Proof.
  exact (proj1 (proj1 (@set_preset_token_or_empty
                  {| self := sample_controller;
                     io := console (camera None None) [] [] |}
                  "home" None eq_refl) eq_refl)).
Defined.

(** C7 as stated fails on [ptz_control_with_keyboard.py]: when the camera's
    response has no token, [set_preset] returns the empty string and nothing
    else happens.  The outcome, the console and the controller are the very
    ones of a camera that assigned the empty token, so no signal of the
    missing token reaches the caller. *)
Lemma keyboard_set_preset_gives_no_signal :
  let missing :=
    ptz_control_with_keyboard.set_preset "home"
      {| self := sample_controller;
         io := console (camera None None) [] [] |} in
  let assigned_empty :=
    ptz_control_with_keyboard.set_preset "home"
      {| self := sample_controller;
         io := console
                 (camera None
                    (Some {| SetPresetResponse.PresetToken := Has ""%string |}))
                 [] [] |} in
  fst missing = Ok (Some ""%string)
  /\ stdout (io (snd missing)) = []
  /\ fst missing = fst assigned_empty
  /\ stdout (io (snd missing)) = stdout (io (snd assigned_empty))
  /\ self (snd missing) = self (snd assigned_empty).
Proof. cbv zeta. repeat split. Qed.

End Operations.





(** ** Movement bursts *)

Section Bursts.

Import PTZController.
Local Open Scope float_scope.

(** C6. Against a client whose calls all return, every pan/tilt burst of
    [run_cli] (menu choices 1 to 4) and of [run_keyboard] (keys W, S, A, D
    and the four arrows) makes exactly these calls, in this order: one
    [ContinuousMove], one [time.sleep] of the burst duration (0.5 s for the
    menu, 0.3 s for the keyboard), one [Stop] with [PanTilt] and [Zoom]
    true.  The wait is the call [time.sleep(duration)], which suspends the
    program for at least that long; elapsed time itself is not modelled.
    For the key D the move is [continuous_move(1.0, 0.0, 0.0)] and the wait
    0.3 s. *)
Theorem pan_tilt_burst_call_sequence (w : World) :
  calls_return (env (io w)) ->
  (forall choice pan tilt, In (choice, (pan, tilt)) menu_pan_tilt ->
     fst (ptz_controller.dispatch choice w) = Ok Continue
     /\ trace (io (snd (ptz_controller.dispatch choice w)))
        = trace (io w) ++ burst_calls (self w) pan tilt 0.5)
  /\ (forall ch pan tilt, In (ch, (pan, tilt)) key_pan_tilt ->
     fst (ptz_control_with_keyboard.on_key ch w) = Ok Continue
     /\ trace (io (snd (ptz_control_with_keyboard.on_key ch w)))
        = trace (io w) ++ burst_calls (self w) pan tilt 0.3)
  /\ (forall ch2 pan tilt, In (ch2, (pan, tilt)) arrow_pan_tilt ->
     fst (ptz_control_with_keyboard.on_arrow ch2 w) = Ok tt
     /\ trace (io (snd (ptz_control_with_keyboard.on_arrow ch2 w)))
        = trace (io w) ++ burst_calls (self w) pan tilt 0.3).
Proof.
  intros H.
  split; [|split]; intros k pan tilt HIn; cbn in HIn;
    repeat (destruct HIn as [HIn | HIn]; [injection HIn as <- <- <- | ]);
    try contradiction;
    unfold ptz_controller.dispatch, ptz_control_with_keyboard.on_key,
      ptz_control_with_keyboard.on_arrow;
    decode_keys;
    cbn [String.eqb Ascii.eqb Bool.eqb];
    unfold_method; answer_calls H; split; try reflexivity;
    rewrite <- !app_assoc; reflexivity.
Qed.

Lemma pan_tilt_burst_call_sequence_witness :
  fst (ptz_control_with_keyboard.on_key "d"
         {| self := sample_controller;
            io := console (camera None None) [] [] |}) = Ok Continue
  /\ trace (io (snd (ptz_control_with_keyboard.on_key "d"
         {| self := sample_controller;
            io := console (camera None None) [] [] |})))
     = burst_calls sample_controller 1 0 0.3.
Proof.
  assert (calls_return (camera None None)) as H.
  { intros tr c. destruct c; eexists; reflexivity. }
  exact (proj1 (proj2 (@pan_tilt_burst_call_sequence
                  {| self := sample_controller;
                     io := console (camera None None) [] [] |} H))
           "d"%char 1 0 (or_intror (or_intror (or_intror (or_intror
              (or_intror (or_intror (or_introl eq_refl)))))))).
Defined.

End Bursts.

(** ** Bursts whose move fails *)

Section FailedMove.

Import PTZController.
Local Open Scope float_scope.

(** C1 fails on [run_cli].  The operator chooses "1" (pan left) and the
    camera refuses the [ContinuousMove]: the exception leaves [run_cli], the
    refused move is the last call made, and no [Stop] is ever called. *)
Theorem run_cli_failed_move_never_stops :
  let run :=
    ptz_controller.run_cli 3 (console camera_refusing_moves [Line "1"] []) in
  fst run = Raise (ClientError "ContinuousMove refused")
  /\ filter is_Stop (trace (snd run)) = []
  /\ map is_ContinuousMove (trace (snd run))
     = [false; false; false; false; false; false; false; false; false; true].
Proof. vm_compute. repeat split. Qed.

(** The same input on [run_keyboard] (key A, pan left): the [finally]
    clause calls [Stop] once, right after the refused move, and then the
    exception leaves [run_keyboard]. *)
Lemma run_keyboard_failed_move_stops_once :
  let run :=
    ptz_control_with_keyboard.run_keyboard 3
      (console camera_refusing_moves [] ["a"%char]) in
  fst run = Raise (ClientError "ContinuousMove refused")
  /\ map is_ContinuousMove (trace (snd run))
     = [false; false; false; false; false; false; false; false; false; true;
        false]
  /\ map is_Stop (trace (snd run))
     = [false; false; false; false; false; false; false; false; false; false;
        true].
Proof. vm_compute. repeat split. Qed.

(** X25. In [run_cli], whatever the state, a burst whose [ContinuousMove]
    is refused ends there: the exception propagates and the refused move is
    the only call made. *)
Lemma cli_burst_failed_move (w : World) (choice : string) (e : exn) :
  In choice burst_choices ->
  (forall tr req, env (io w) tr (ContinuousMove req) = Raises e) ->
  fst (ptz_controller.dispatch choice w) = Raise e
  /\ exists req,
       trace (io (snd (ptz_controller.dispatch choice w)))
       = trace (io w)
           ++ [{| ev_call := ContinuousMove req; ev_answer := Raises e |}].
Proof.
  intros HIn H. cbn in HIn.
  repeat (destruct HIn as [<- | HIn]); try contradiction;
    unfold ptz_controller.dispatch; cbn [String.eqb Ascii.eqb Bool.eqb];
    unfold_method; rewrite H; cbn; split; try reflexivity;
    eexists; reflexivity.
Qed.

(** X24. In [run_keyboard], whenever the guarded loop gives control back,
    normally or by an exception, the last call it made is a [Stop] of both
    axis groups. *)
Lemma guarded_loop_ends_with_stop (fuel : nat) (w : World) :
  fst (ptz_control_with_keyboard.guarded_loop fuel w) <> Pending ->
  exists pre tok ans,
    trace (io (snd (ptz_control_with_keyboard.guarded_loop fuel w)))
    = pre ++ [{| ev_call :=
                   Stop {| StopRequest.ProfileToken := tok;
                           StopRequest.PanTilt := Some true;
                           StopRequest.Zoom := Some true |};
                 ev_answer := ans |}].
Proof.
  unfold ptz_control_with_keyboard.guarded_loop, try_finally.
  destruct (try_except _ _ _ w) as [r w1].
  destruct r as [u|e|]; [| |intros H; now elim H]; intros _;
    unfold_method;
    destruct (env (io w1) (trace (io w1)) _); cbn;
    do 3 eexists; reflexivity.
Qed.

(** X26. A burst of [run_keyboard] whose [ContinuousMove] is refused: the
    guarded loop makes exactly two calls, the refused move and one [Stop],
    and then raises (the exception of the move, or that of the [Stop] if it
    fails too). *)
Lemma keyboard_burst_failed_move (fuel : nat) (w : World) (ch : ascii)
    (rest : list ascii) (e : exn) :
  In ch burst_keys ->
  kbd (io w) = ch :: rest ->
  is_Exception e = true ->
  (forall tr req, env (io w) tr (ContinuousMove req) = Raises e) ->
  exists req tok ans,
    trace (io (snd (ptz_control_with_keyboard.guarded_loop (S fuel) w)))
    = trace (io w)
        ++ [{| ev_call := ContinuousMove req; ev_answer := Raises e |};
            {| ev_call :=
                 Stop {| StopRequest.ProfileToken := tok;
                         StopRequest.PanTilt := Some true;
                         StopRequest.Zoom := Some true |};
               ev_answer := ans |}]
    /\ fst (ptz_control_with_keyboard.guarded_loop (S fuel) w)
       = Raise (match ans with Raises e' => e' | Returns _ => e end).
Proof.
  intros HIn Hk He H. cbn in HIn.
  destruct w as [c [en tr out inp kb]]. cbn in Hk, H |- *. subst kb.
  unfold ptz_control_with_keyboard.guarded_loop, try_finally, try_except.
  cbn [ptz_control_with_keyboard.loop].
  unfold ptz_control_with_keyboard.iteration, kbhit, getch.
  repeat (destruct HIn as [<- | HIn]); try contradiction;
    unfold ptz_control_with_keyboard.on_key; unfold_method; decode_keys;
    unfold_method; rewrite H; cbn;
    (destruct e; try discriminate He; cbn;
     match goal with
     | |- context [en ?t ?c] => destruct (en t c)
     end; cbn; do 3 eexists; rewrite <- app_assoc; split; reflexivity).
Qed.

End FailedMove.

(** ** Velocity limits at construction *)

Section Limits.

Import PTZController.
Local Open Scope float_scope.

(** What the guarded limits block of [ptz_control_with_keyboard.py] does,
    in the state [s] in which it starts. *)
Lemma keyboard_read_limits (profile : Profile.t) (s : IOState) :
  try_except (ptz_control_with_keyboard.read_limits profile) is_Exception
    (fun _ => ret default_speeds) s
  = match Profile.PTZConfiguration profile with
    | None => (Ok default_speeds, s)
    | Some c =>
        let q := GetConfigurationOptions (PTZConfiguration.token c) in
        match env s (trace s) q with
        | Returns o =>
            (Ok match reported_maxima o with
                | Some sp => sp
                | None => default_speeds
                end,
             log q (Returns (VOptions o)) s)
        | Raises e =>
            (if is_Exception e then Ok default_speeds else Raise e,
             log q (Raises e) s)
        end
    end.
Proof.
  unfold try_except, ptz_control_with_keyboard.read_limits, bind, ret, raise,
    invoke.
  destruct (Profile.PTZConfiguration profile) as [c|]; cbn; [|reflexivity].
  destruct (env s (trace s) _) as [o|e]; cbn.
  - split_options o.
  - destruct (is_Exception e); reflexivity.
Qed.

(** What the guarded limits block of [ptz_controller.py] leaves in the
    three speed attributes: it never raises, and each axis group keeps the
    camera's maxima or the default. *)
Lemma controller_read_limits (o : option ConfigurationOptions.t) (s : IOState) :
  exists sp,
    run_local default_speeds
      (try_except (ptz_controller.read_limits o) is_Exception
         (fun _ => ret tt)) s = (Ok sp, s)
    /\ (forall sp', reported_maxima o = Some sp' -> sp = sp')
    /\ (no_pan_tilt_space o = true -> no_zoom_space o = true ->
        sp = default_speeds)
    /\ (forall p t, pan_tilt_maxima o = Some (p, t) ->
        no_zoom_space o = true ->
        sp = {| pan_speed := p; tilt_speed := t; zoom_speed := 0.5 |})
    /\ (forall z, no_pan_tilt_space o = true -> zoom_maximum o = Some z ->
        sp = {| pan_speed := 0.5; tilt_speed := 0.5; zoom_speed := z |}).
Proof.
  unfold run_local, try_except, ptz_controller.read_limits, bind, ret, raise.
  destruct o as [[[| |[ptvs zvs]]]|]; cbn; try close_limits.
  destruct ptvs as [| |[|[xr yr] ?]]; cbn;
    try (destruct xr as [| |[? ?]]; cbn; try close_limits;
         destruct yr as [| |[? ?]]; cbn; try close_limits);
    destruct zvs as [| |[|[zr] ?]]; cbn; try close_limits;
    destruct zr as [| |[? ?]]; cbn; close_limits.
Qed.

(** C2, as the code has it.

    In [ptz_control_with_keyboard.py], once the session setup has come to
    the velocity-limits query: if the query raises an [Exception], or
    returns a response that is absent or lacks a velocity range,
    construction succeeds with all three limits at 0.5; if the response is
    well-formed, construction succeeds with the camera-reported maxima.  A
    profile without PTZ configuration, for which the query cannot even be
    sent, also gives the three defaults.

    In [ptz_controller.py], once the query has returned: a well-formed
    response gives the camera-reported maxima; a response that offers
    neither velocity space gives 0.5 for all three; and the two axis groups
    fall back separately, so that a response with pan/tilt ranges and no
    zoom space keeps the camera's pan and tilt maxima beside zoom 0.5, and a
    response with a zoom range and no pan/tilt space keeps the camera's zoom
    maximum beside pan and tilt 0.5. *)
Theorem limits_fallback (config : CameraConfig) (io0 : IOState) :
  let kb := ptz_control_with_keyboard.__init__ config io0 in
  let pc := ptz_controller.__init__ config io0 in
  (forall e, limits_query_answered (trace (snd kb)) (Raises e) ->
     is_Exception e = true ->
     exists c, fst kb = Ok c /\ limits c = default_speeds)
  /\ (forall o, limits_query_answered (trace (snd kb)) (Returns (VOptions o)) ->
     exists c, fst kb = Ok c
       /\ limits c = match reported_maxima o with
                     | Some sp => sp
                     | None => default_speeds
                     end)
  /\ (forall pre,
     trace (snd kb)
     = pre ++ [{| ev_call := create_type "SetPreset";
                  ev_answer := Returns VUnit |}] ->
     exists c, fst kb = Ok c /\ limits c = default_speeds)
  /\ (forall o, limits_query_answered (trace (snd pc)) (Returns (VOptions o)) ->
     exists c, fst pc = Ok c
       /\ (forall sp, reported_maxima o = Some sp -> limits c = sp)
       /\ (no_pan_tilt_space o = true -> no_zoom_space o = true ->
           limits c = default_speeds)
       /\ (forall p t, pan_tilt_maxima o = Some (p, t) ->
           no_zoom_space o = true ->
           limits c = {| pan_speed := p; tilt_speed := t; zoom_speed := 0.5 |})
       /\ (forall z, no_pan_tilt_space o = true -> zoom_maximum o = Some z ->
           limits c = {| pan_speed := 0.5; tilt_speed := 0.5;
                         zoom_speed := z |})).
Proof.
  cbv zeta. unfold_init.
  destruct (wsdl_dir config) as [d|]; [destruct (nonempty d)|].
  all: next_call; [|no_such_end].
  all: next_call; [|no_such_end].
  all: next_call; [|no_such_end].
  all: next_call; [|no_such_end].
  all: destruct a2 as [|profile others];
    cbn -[try_except run_local ptz_controller.read_limits
          ptz_control_with_keyboard.read_limits]; [no_such_end|].
  all: next_call; [|no_such_end].
  all: next_call; [|no_such_end].
  all: next_call; [|no_such_end].
  all: next_call; [|no_such_end].
  all: rewrite keyboard_read_limits.
  all: destruct (Profile.PTZConfiguration profile) as [ptzc|];
    cbn -[try_except run_local ptz_controller.read_limits
          ptz_control_with_keyboard.read_limits].
  all: try next_call.
  all: try match goal with
           | |- context [if is_Exception ?e then _ else _] =>
               destruct (is_Exception e) eqn:?; cbn
           end.
  all: try match goal with
           | |- context [run_local default_speeds
                           (try_except (ptz_controller.read_limits ?o) _ _)
                           ?s] =>
               let sp := fresh "sp" in
               let Esp := fresh "Esp" in
               let Hsp := fresh "Hsp" in
               destruct (controller_read_limits o s) as [sp [Esp Hsp]];
               unfold ret in Esp; rewrite Esp; destruct sp; cbn in Hsp |- *
           end.
  all: repeat match goal with |- _ /\ _ => split end; intros.
  all: repeat match goal with H : exists _, _ |- _ => destruct H end.
  all: try match goal with
       | H : _ ++ [_] = _ ++ [_] |- _ =>
           apply app_inj_tail in H; destruct H as [_ H];
           try discriminate H; injection H; intros; subst
       end.
  all: try congruence.
  all: try (eexists; split; [reflexivity|]; assumption).
  all: try (destruct (reported_maxima _) as [[? ? ?]|]);
    eexists; split; reflexivity.
Qed.


Lemma limits_fallback_witness :
  exists c,
    fst (ptz_control_with_keyboard.__init__ CameraConfig_default
           (console (camera None None) [] [])) = Ok c
    /\ limits c = default_speeds.
Proof.
  refine (proj1 (proj2 (limits_fallback CameraConfig_default
                          (console (camera None None) [] []))) None _).
  exists (removelast
            (trace (snd (ptz_control_with_keyboard.__init__
                           CameraConfig_default
                           (console (camera None None) [] []))))),
    "ptz_cfg_1"%string.
  reflexivity.
Defined.

(** C2 as stated fails on [ptz_controller.py].  The camera answers the
    query with a response that has the pan/tilt ranges (0.7 and 0.6) and no
    zoom space; the response is not well-formed, yet construction keeps the
    camera's pan and tilt maxima, and only zoom gets the default. *)
Lemma controller_limits_not_all_default :
  let pc :=
    ptz_controller.__init__ CameraConfig_default
      (console (camera (Some pan_tilt_only_options) None) [] []) in
  reported_maxima (Some pan_tilt_only_options) = None
  /\ limits_query_answered (trace (snd pc))
       (Returns (VOptions (Some pan_tilt_only_options)))
  /\ exists c,
       fst pc = Ok c
       /\ limits c = {| pan_speed := 0.7; tilt_speed := 0.6; zoom_speed := 0.5 |}
       /\ limits c <> default_speeds.
Proof.
  cbv zeta. split; [reflexivity|]. split.
  - exists (removelast
              (trace (snd (ptz_controller.__init__ CameraConfig_default
                             (console (camera (Some pan_tilt_only_options) None)
                                [] []))))),
      "ptz_cfg_1"%string.
    reflexivity.
  - eexists. split; [reflexivity|]. split; [reflexivity|].
    intros H. apply (f_equal (fun sp => (pan_speed sp =? 0.5))) in H.
    vm_compute in H. discriminate H.
Qed.

(** In [ptz_controller.py] the query itself is made outside the guarded
    block: when it raises, construction raises too, while
    [ptz_control_with_keyboard.py] falls back to the defaults. *)
Lemma controller_init_fails_when_query_raises :
  fst (ptz_controller.__init__ CameraConfig_default
         (console camera_without_limits [] []))
    = Raise (ClientError "GetConfigurationOptions failed")
  /\ exists c,
       fst (ptz_control_with_keyboard.__init__ CameraConfig_default
              (console camera_without_limits [] [])) = Ok c
       /\ limits c = default_speeds.
Proof. split; [reflexivity|]. eexists. split; reflexivity. Qed.

End Limits.

(** ** The profile token of the requests *)

Section ProfileTokens.

Import PTZController.

(** One operation changes neither the selected profile nor the
    [ProfileToken] of any request object, and every call it makes carries
    the token that the request object already had. *)
Lemma perform_frame (perform : operation -> World -> World) (tok : string)
    (o : operation) (w : World) :
  perform = perform_cli \/ perform = perform_keyboard ->
  profile (self (perform o w)) = profile (self w)
  /\ request_tokens (self (perform o w)) = request_tokens (self w)
  /\ (Profile.token (profile (self w)) = tok ->
      request_tokens (self w) = [Some tok; Some tok; Some tok; Some tok] ->
      exists new, trace (io (perform o w)) = trace (io w) ++ new
                  /\ Forall (targets tok) new).
Proof.
  intros [-> | ->]; destruct o; cbn [perform_cli perform_keyboard];
    unfold_method;
    (destruct (env (io w) (trace (io w)) _) as [a|e]; cbn;
     try match goal with
         | |- context [match a with Some _ => _ | None => _ end] =>
             destruct a as [[[| |?]]|]; cbn
         end);
    (split; [reflexivity|]; split; [reflexivity|]);
    intros Hp Ht; injection Ht as H1 H2 H3 H4;
    eexists; (split; [reflexivity|]);
    repeat constructor; cbn; assumption.
Qed.

(** The same over a whole session. *)
Lemma session_frame (perform : operation -> World -> World) (tok : string)
    (ops : list operation) (w : World) :
  perform = perform_cli \/ perform = perform_keyboard ->
  Profile.token (profile (self w)) = tok ->
  request_tokens (self w) = [Some tok; Some tok; Some tok; Some tok] ->
  profile (self (session perform ops w)) = profile (self w)
  /\ request_tokens (self (session perform ops w)) = request_tokens (self w)
  /\ exists new, trace (io (session perform ops w)) = trace (io w) ++ new
                 /\ Forall (targets tok) new.
Proof.
  intros Hperform. revert w.
  induction ops as [|o ops IH]; intros w Hp Ht; cbn.
  - repeat split. exists []. split; [now rewrite app_nil_r | constructor].
  - destruct (perform_frame tok o w Hperform) as [Fp [Ft Fnew]].
    destruct (Fnew Hp Ht) as [new1 [E1 T1]].
    destruct (IH (perform o w)) as [Sp [St [new2 [E2 T2]]]];
      [congruence | congruence |].
    unfold session in *. rewrite Sp, St, Fp, Ft. repeat split.
    exists (new1 ++ new2). split.
    + now rewrite E2, E1, app_assoc.
    + apply Forall_app. split; assumption.
Qed.

(** After a construction that succeeded, every request object holds the
    token of the controller's profile, and that profile is the first of the
    profiles that [GetProfiles] returned. *)
Lemma init_tokens (config : CameraConfig) (io0 io1 : IOState)
    (c : PTZController.t) :
  ptz_controller.__init__ config io0 = (Ok c, io1)
  \/ ptz_control_with_keyboard.__init__ config io0 = (Ok c, io1) ->
  request_tokens c
  = [Some (Profile.token (profile c)); Some (Profile.token (profile c));
     Some (Profile.token (profile c)); Some (Profile.token (profile c))]
  /\ exists others,
       In {| ev_call := GetProfiles;
             ev_answer := Returns (VProfiles (profile c :: others)) |}
          (trace io1).
Proof.
  unfold_init.
  destruct (wsdl_dir config) as [d|]; [destruct (nonempty d)|].
  all: next_call; [|intros [H|H]; discriminate H].
  all: next_call; [|intros [H|H]; discriminate H].
  all: next_call; [|intros [H|H]; discriminate H].
  all: next_call; [|intros [H|H]; discriminate H].
  all: destruct a2 as [|first others];
    cbn -[try_except run_local ptz_controller.read_limits
          ptz_control_with_keyboard.read_limits];
    [intros [H|H]; discriminate H|].
  all: next_call; [|intros [H|H]; discriminate H].
  all: next_call; [|intros [H|H]; discriminate H].
  all: next_call; [|intros [H|H]; discriminate H].
  all: next_call; [|intros [H|H]; discriminate H].
  all: rewrite keyboard_read_limits.
  all: destruct (Profile.PTZConfiguration first) as [ptzc|];
    cbn -[try_except run_local ptz_controller.read_limits
          ptz_control_with_keyboard.read_limits].
  all: try next_call.
  all: try match goal with
           | |- context [if is_Exception ?e then _ else _] =>
               destruct (is_Exception e) eqn:?; cbn
           end.
  all: try match goal with
           | |- context [run_local default_speeds
                           (try_except (ptz_controller.read_limits ?o) _ _)
                           ?s] =>
               let sp := fresh "sp" in
               let Esp := fresh "Esp" in
               let Hsp := fresh "Hsp" in
               destruct (controller_read_limits o s) as [sp [Esp Hsp]];
               unfold ret in Esp; rewrite Esp; cbn
           end.
  all: intros [H|H]; try discriminate H; injection H as <- <-; cbn.
  all: split; [reflexivity|]; exists others.
  all: repeat (apply in_or_app; (right; left; reflexivity) || left).
Qed.

(** C10. In both variants, every public operation ([continuous_move],
    [stop], [go_to_preset], [set_preset], [list_presets]) leaves the
    [ProfileToken] of each of the four shared request objects as it was,
    whether it returns or raises.  The field is set at construction to the
    token of the selected media profile, the first that [GetProfiles]
    returned; so after any session of operations the four fields still hold
    that token, the selected profile is the same, and every request sent
    during the session targeted that token. *)
Theorem profile_token_fixed
    (init : CameraConfig -> M IOState PTZController.t)
    (perform : operation -> World -> World)
    (config : CameraConfig) (io0 io1 : IOState) (c : PTZController.t)
    (ops : list operation) :
  In (init, perform) variants ->
  init config io0 = (Ok c, io1) ->
  let tok := Profile.token (profile c) in
  let w' := session perform ops {| self := c; io := io1 |} in
  (forall o w, request_tokens (self (perform o w)) = request_tokens (self w))
  /\ (exists others,
        In {| ev_call := GetProfiles;
              ev_answer := Returns (VProfiles (profile c :: others)) |}
           (trace io1))
  /\ request_tokens c = [Some tok; Some tok; Some tok; Some tok]
  /\ request_tokens (self w') = [Some tok; Some tok; Some tok; Some tok]
  /\ profile (self w') = profile c
  /\ exists new, trace (io w') = trace io1 ++ new /\ Forall (targets tok) new.
Proof.
  intros Hv Hinit tok w'.
  assert (perform = perform_cli \/ perform = perform_keyboard) as Hperform.
  { destruct Hv as [Hv | [Hv | []]]; injection Hv as _ <-; auto. }
  assert (ptz_controller.__init__ config io0 = (Ok c, io1)
          \/ ptz_control_with_keyboard.__init__ config io0 = (Ok c, io1))
    as Hinit'.
  { destruct Hv as [Hv | [Hv | []]]; injection Hv as <- _; auto. }
  destruct (init_tokens config io0 Hinit') as [Ht Hprofiles].
  destruct (@session_frame perform tok ops {| self := c; io := io1 |}
              Hperform eq_refl Ht) as [Sp [St Snew]].
  split; [|split; [|split; [|split; [|split]]]].
  - intros o w. apply (perform_frame tok o w Hperform).
  - exact Hprofiles.
  - exact Ht.
  - subst w'. rewrite St. exact Ht.
  - exact Sp.
  - exact Snew.
Qed.

Lemma profile_token_fixed_witness :
  request_tokens
    (self (session perform_keyboard
             [Do_continuous_move 1 0 0; Do_stop true true; Do_set_preset "home"]
             {| self := sample_controller;
                io := snd (ptz_control_with_keyboard.__init__
                             CameraConfig_default
                             (console (camera (Some full_options) None) [] [])) |}))
  = [Some "profile_1"; Some "profile_1"; Some "profile_1"; Some "profile_1"]%string.
Proof.
  refine (proj1 (proj2 (proj2 (proj2
    (@profile_token_fixed ptz_control_with_keyboard.__init__ perform_keyboard
       CameraConfig_default (console (camera (Some full_options) None) [] [])
       _ _
       [Do_continuous_move 1 0 0; Do_stop true true; Do_set_preset "home"]
       (or_intror (or_introl eq_refl)) _))))).
  reflexivity.
Defined.

End ProfileTokens.

(** * Further properties of the code *)

(** ** The normalization function on every float *)

Section NormalizationTotal.

Local Open Scope float_scope.

Lemma ltb_leb (x y : float) : (x <? y) = true -> (x <=? y) = true.
Proof.
  rewrite ltb_spec, leb_spec. unfold SFltb, SFleb.
  destruct (SFcompare (Prim2SF x) (Prim2SF y)) as [[| |]|];
    discriminate || reflexivity.
Qed.

Lemma SFcompare_refl (a : spec_float) :
  a <> S754_nan -> SFcompare a a = Some Eq.
Proof.
  destruct a as [s|s| |s m e]; cbn; intros H;
    try (now elim H); try (destruct s; reflexivity).
  change (Pos.compare_cont Eq m m) with (Pos.compare m m).
  rewrite Z.compare_refl, Pos.compare_refl. destruct s; reflexivity.
Qed.

(** A NaN is below nothing. *)
Lemma nan_not_ltb (v x : float) : is_nan v = true -> (v <? x) = false.
Proof.
  unfold is_nan. rewrite eqb_spec, ltb_spec. unfold SFeqb, SFltb.
  destruct (Prim2SF v) as [s|s| |s m e] eqn:E;
    try reflexivity;
    rewrite SFcompare_refl by discriminate; discriminate.
Qed.

(** The clamped value lies in [[-1, 1]] for every float, NaN and the
    infinities included. *)
Lemma clamp_in_range (v : float) :
  (-1 <=? Py.max (-1) (Py.min 1 v)) = true
  /\ (Py.max (-1) (Py.min 1 v) <=? 1) = true.
Proof.
  unfold Py.min, Py.max.
  destruct (v <? 1) eqn:E1.
  - destruct (-1 <? v) eqn:E2.
    + split; now apply ltb_leb.
    + split; vm_compute; reflexivity.
  - split; vm_compute; reflexivity.
Qed.

(** X1. Whatever the input, a NaN or an infinity included, both
    [_normalized_speed]s return the limit multiplied by a factor that lies
    in [[-1, 1]]. *)
Theorem normalized_speed_factor_in_range (v limit : float) :
  exists c,
    (-1 <=? c) = true /\ (c <=? 1) = true
    /\ ptz_controller._normalized_speed v limit = c * limit
    /\ ptz_control_with_keyboard._normalized_speed v limit = c * limit.
Proof.
  exists (Py.max (-1) (Py.min 1 v)).
  destruct (clamp_in_range v) as [Hlo Hhi]. repeat split; assumption.
Qed.

(** X2. A NaN input is not rejected and does not give NaN by itself: since
    [min(1.0, v)] keeps [1.0] when the comparison with [v] is false, both
    [_normalized_speed]s treat a NaN as [1.0], full speed in the positive
    direction. *)
Theorem normalized_speed_of_nan (v limit : float) :
  is_nan v = true ->
  ptz_controller._normalized_speed v limit = 1 * limit
  /\ ptz_control_with_keyboard._normalized_speed v limit = 1 * limit.
Proof.
  intros H.
  unfold ptz_controller._normalized_speed,
    ptz_control_with_keyboard._normalized_speed, Py.min.
  rewrite (@nan_not_ltb v 1 H). split; reflexivity.
Qed.

Lemma normalized_speed_of_nan_witness :
  ptz_controller._normalized_speed nan 0.5 = 1 * 0.5
  /\ ptz_control_with_keyboard._normalized_speed nan 0.5 = 1 * 0.5.
Proof.
  exact (@normalized_speed_of_nan nan 0.5 eq_refl).
Defined.

End NormalizationTotal.

(** ** What the operations do to the controller and to the client *)

Section OperationEffects.

Import PTZController.

Ltac one_call w :=
  unfold_method;
  destruct (env (io w) (trace (io w)) _) as [a|e]; cbn;
  try match goal with
      | |- context [match a with Some _ => _ | None => _ end] =>
          destruct a as [[[| |?]]|]; cbn
      end;
  eexists; (split; [reflexivity|]); cbn; try reflexivity;
  eexists; reflexivity.

(** X3. In both variants each of the five public operations makes exactly
    one call to the camera client, with no retry; it raises the client's
    exception when that call raises (nothing is swallowed) and returns
    normally when the call returns. *)
Theorem operations_make_one_call :
  (forall pan tilt zoom,
     one_call_no_swallow (ptz_controller.continuous_move pan tilt zoom)
     /\ one_call_no_swallow
          (ptz_control_with_keyboard.continuous_move pan tilt zoom))
  /\ (forall pan_tilt zoom,
     one_call_no_swallow (ptz_controller.stop pan_tilt zoom)
     /\ one_call_no_swallow (ptz_control_with_keyboard.stop pan_tilt zoom))
  /\ (forall tok,
     one_call_no_swallow (ptz_controller.go_to_preset tok)
     /\ one_call_no_swallow (ptz_control_with_keyboard.go_to_preset tok))
  /\ (forall name,
     one_call_no_swallow (ptz_controller.set_preset name)
     /\ one_call_no_swallow (ptz_control_with_keyboard.set_preset name))
  /\ one_call_no_swallow ptz_controller.list_presets
  /\ one_call_no_swallow ptz_control_with_keyboard.list_presets.
Proof.
  repeat match goal with
         | |- _ /\ _ => split
         | |- forall _, _ => intro
         end;
    unfold one_call_no_swallow; intros w; one_call w.
Qed.

(** What one operation sends and what it changes in the controller. *)
Lemma operation_writes (o : operation) (w : World) :
  (exists sent ans,
     trace (io (perform_cli o w))
     = trace (io w) ++ [{| ev_call := sent; ev_answer := ans |}]
     /\ writes_only_own_request o sent (self w) (self (perform_cli o w)))
  /\ (exists sent ans,
     trace (io (perform_keyboard o w))
     = trace (io w) ++ [{| ev_call := sent; ev_answer := ans |}]
     /\ writes_only_own_request o sent (self w) (self (perform_keyboard o w))).
Proof.
  destruct w as [[cfg prof rc rs rg rsp mp mt mz] i].
  split; destruct o; cbn [perform_cli perform_keyboard];
    unfold_method;
    (destruct (env i (trace i) _) as [a|e]; cbn;
     try match goal with
         | |- context [match a with Some _ => _ | None => _ end] =>
             destruct a as [[[| |?]]|]; cbn
         end);
    do 2 eexists; (split; [reflexivity|]); split; reflexivity.
Qed.

(** X4. An operation writes to the request object of its own kind and to
    nothing else of the controller: the other three request objects, the
    configuration, the profile and the three limits stay as they were, and
    [list_presets] changes nothing at all.  The request object keeps what
    was sent, also when the call raised. *)
Theorem operations_write_own_request (o : operation) (w : World) :
  (exists sent ans,
     trace (io (perform_cli o w))
     = trace (io w) ++ [{| ev_call := sent; ev_answer := ans |}]
     /\ writes_only_own_request o sent (self w) (self (perform_cli o w)))
  /\ (exists sent ans,
     trace (io (perform_keyboard o w))
     = trace (io w) ++ [{| ev_call := sent; ev_answer := ans |}]
     /\ writes_only_own_request o sent (self w) (self (perform_keyboard o w))).
Proof. exact (operation_writes o w). Qed.

(** X5. The velocity limits, the configuration and the selected profile are
    fixed for the session: no sequence of operations, returning or raising,
    changes them. *)
Theorem session_keeps_limits (ops : list operation) (w : World) :
  let after_cli := self (session perform_cli ops w) in
  let after_keyboard := self (session perform_keyboard ops w) in
  limits after_cli = limits (self w)
  /\ config after_cli = config (self w)
  /\ profile after_cli = profile (self w)
  /\ limits after_keyboard = limits (self w)
  /\ config after_keyboard = config (self w)
  /\ profile after_keyboard = profile (self w).
Proof.
  cbv zeta. revert w. induction ops as [|o ops IH]; intros w.
  - repeat split.
  - unfold session in *. cbn [fold_left].
    destruct (IH (perform_cli o w)) as [L1 [C1 [P1 _]]].
    destruct (IH (perform_keyboard o w)) as [_ [_ [_ [L2 [C2 P2]]]]].
    rewrite L1, C1, P1, L2, C2, P2.
    destruct (operation_writes o w)
      as [[s1 [a1 [_ W1]]] [s2 [a2 [_ W2]]]].
    destruct o; cbv beta iota delta [writes_only_own_request] in W1, W2;
      destruct W1 as [_ W1], W2 as [_ W2];
      rewrite W1, W2; repeat split.
Qed.

End OperationEffects.

(** ** More on movement bursts *)

Section MoreBursts.

Import PTZController.
Local Open Scope float_scope.

(** X6. Against a client whose calls all return, every zoom burst of
    [run_cli] (menu choices 5 and 6) and of [run_keyboard] (keys Q and E)
    makes exactly three calls: a [ContinuousMove] on the zoom axis alone,
    the [time.sleep] of the burst duration, and a [Stop] with [Zoom] true
    and [PanTilt] false, so that a pan or tilt in progress is not
    stopped. *)
Theorem zoom_burst_call_sequence (w : World) :
  calls_return (env (io w)) ->
  (forall choice zoom, In (choice, zoom) menu_zoom ->
     fst (ptz_controller.dispatch choice w) = Ok Continue
     /\ trace (io (snd (ptz_controller.dispatch choice w)))
        = trace (io w) ++ zoom_burst_calls (self w) zoom 0.5)
  /\ (forall ch zoom, In (ch, zoom) key_zoom ->
     fst (ptz_control_with_keyboard.on_key ch w) = Ok Continue
     /\ trace (io (snd (ptz_control_with_keyboard.on_key ch w)))
        = trace (io w) ++ zoom_burst_calls (self w) zoom 0.3).
Proof.
  intros H.
  split; intros k zoom HIn; cbn in HIn;
    repeat (destruct HIn as [HIn | HIn]; [injection HIn as <- <- | ]);
    try contradiction;
    unfold ptz_controller.dispatch, ptz_control_with_keyboard.on_key;
    decode_keys;
    cbn [String.eqb Ascii.eqb Bool.eqb];
    unfold_method; answer_calls H; split; try reflexivity;
    rewrite <- !app_assoc; reflexivity.
Qed.

Lemma zoom_burst_call_sequence_witness :
  fst (ptz_controller.dispatch "5"
         {| self := sample_controller;
            io := console (camera None None) [] [] |}) = Ok Continue
  /\ trace (io (snd (ptz_controller.dispatch "5"
         {| self := sample_controller;
            io := console (camera None None) [] [] |})))
     = zoom_burst_calls sample_controller 0.5 0.5.
Proof.
  assert (calls_return (camera None None)) as H.
  { intros tr c. destruct c; eexists; reflexivity. }
  exact (proj1 (@zoom_burst_call_sequence
                  {| self := sample_controller;
                     io := console (camera None None) [] [] |} H)
           "5"%string 0.5 (or_introl eq_refl)).
Defined.

Lemma guarded_loop_ends_with_stop_witness :
  exists pre tok ans,
    trace (io (snd (ptz_control_with_keyboard.guarded_loop 2
                      {| self := sample_controller;
                         io := console camera_refusing_moves [] ["d"%char] |})))
    = pre ++ [{| ev_call :=
                   Stop {| StopRequest.ProfileToken := tok;
                           StopRequest.PanTilt := Some true;
                           StopRequest.Zoom := Some true |};
                 ev_answer := ans |}].
Proof.
  apply (@guarded_loop_ends_with_stop 2
           {| self := sample_controller;
              io := console camera_refusing_moves [] ["d"%char] |}).
  vm_compute. discriminate.
Defined.

Lemma cli_burst_failed_move_witness :
  fst (ptz_controller.dispatch "3"
         {| self := sample_controller;
            io := console camera_refusing_moves [] [] |})
  = Raise (ClientError "ContinuousMove refused").
Proof.
  exact (proj1 (@cli_burst_failed_move
                  {| self := sample_controller;
                     io := console camera_refusing_moves [] [] |}
                  "3"%string (ClientError "ContinuousMove refused")
                  (or_intror (or_intror (or_introl eq_refl)))
                  (fun _ _ => eq_refl))).
Defined.

Lemma keyboard_burst_failed_move_witness :
  exists req tok ans,
    trace (io (snd (ptz_control_with_keyboard.guarded_loop 1
                      {| self := sample_controller;
                         io := console camera_refusing_moves [] ["q"%char] |})))
    = [{| ev_call := ContinuousMove req;
          ev_answer := Raises (ClientError "ContinuousMove refused") |};
       {| ev_call :=
            Stop {| StopRequest.ProfileToken := tok;
                    StopRequest.PanTilt := Some true;
                    StopRequest.Zoom := Some true |};
          ev_answer := ans |}]
    /\ fst (ptz_control_with_keyboard.guarded_loop 1
              {| self := sample_controller;
                 io := console camera_refusing_moves [] ["q"%char] |})
       = Raise (match ans with
                | Raises e' => e'
                | Returns _ => ClientError "ContinuousMove refused"
                end).
Proof.
  exact (@keyboard_burst_failed_move 0
           {| self := sample_controller;
              io := console camera_refusing_moves [] ["q"%char] |}
           "q"%char [] (ClientError "ContinuousMove refused")
           (or_intror (or_intror (or_intror (or_intror (or_intror
              (or_intror (or_intror (or_intror (or_introl eq_refl)))))))))
           eq_refl eq_refl (fun _ _ => eq_refl)).
Defined.

End MoreBursts.

(** ** The menu loop of [run_cli] *)

Section MenuLoop.

Import PTZController.
Local Open Scope float_scope.



(** X7. When standard input ends, or the operator presses Ctrl-C at the
    menu prompt, [run_cli]'s loop calls [Stop] for both axis groups once and
    then raises [SystemExit(0)]; if that [Stop] raises, its exception is
    what leaves the loop. *)
Theorem cli_end_of_input (fuel : nat) (w : World) :
  stdin (io w) = [] \/ (exists rest, stdin (io w) = CtrlC :: rest) ->
  exists ans,
    trace (io (snd (ptz_controller.loop (S fuel) w)))
    = trace (io w) ++ [{| ev_call := stop_all (self w); ev_answer := ans |}]
    /\ fst (ptz_controller.loop (S fuel) w)
       = Raise (match ans with Raises e => e | Returns _ => SystemExit 0 end)
    /\ stdout (io (snd (ptz_controller.loop (S fuel) w)))
       = stdout (io w)
           ++ [ptz_controller.menu; (nl ++ "Exiting...")%string].
Proof.
  intros H. destruct w as [c [en tr out inp kb]]. cbn in H |- *.
  unfold ptz_controller.iteration, try_except, input.
  destruct H as [-> | [rest ->]]; unfold_method;
    destruct (en tr _) as [a|e]; cbn; eexists;
    rewrite <- app_assoc; repeat split.
Qed.

Lemma cli_end_of_input_witness :
  exists ans,
    trace (io (snd (ptz_controller.loop 1
                      {| self := sample_controller;
                         io := console (camera None None) [] [] |})))
    = [{| ev_call := stop_all sample_controller; ev_answer := ans |}]
    /\ fst (ptz_controller.loop 1
              {| self := sample_controller;
                 io := console (camera None None) [] [] |})
       = Raise (match ans with Raises e => e | Returns _ => SystemExit 0 end)
    /\ stdout (io (snd (ptz_controller.loop 1
                          {| self := sample_controller;
                             io := console (camera None None) [] [] |})))
       = [ptz_controller.menu; (nl ++ "Exiting...")%string].
Proof.
  exact (@cli_end_of_input 0
           {| self := sample_controller;
              io := console (camera None None) [] [] |} (or_introl eq_refl)).
Defined.

(** Decides the chain of comparisons of [dispatch] for a choice that is
    none of the menu's. *)
Ltac not_a_choice H choice k :=
  let E := fresh "E" in
  let N := fresh "N" in
  assert ((choice =? k)%string = false) as E
    by (apply String.eqb_neq; intros N; apply H; rewrite N; cbn; tauto);
  rewrite E; clear E.

(** X8. A menu choice that is none of "0" to "10" (after stripping) makes
    no call to the camera and changes nothing but the console: [run_cli]
    prints "Invalid choice. Try again." and goes on with the loop. *)
Theorem cli_invalid_choice (choice : string) (w : World) :
  ~ In choice menu_choices ->
  ptz_controller.dispatch choice w
  = (Ok Continue,
     {| self := self w; io := write "Invalid choice. Try again." (io w) |}).
Proof.
  intros H. unfold ptz_controller.dispatch.
  not_a_choice H choice "0"%string. not_a_choice H choice "1"%string.
  not_a_choice H choice "2"%string. not_a_choice H choice "3"%string.
  not_a_choice H choice "4"%string. not_a_choice H choice "5"%string.
  not_a_choice H choice "6"%string. not_a_choice H choice "7"%string.
  not_a_choice H choice "8"%string. not_a_choice H choice "9"%string.
  not_a_choice H choice "10"%string.
  reflexivity.
Qed.

Lemma cli_invalid_choice_witness :
  ptz_controller.dispatch "left"
    {| self := sample_controller; io := console (camera None None) [] [] |}
  = (Ok Continue,
     {| self := sample_controller;
        io := write "Invalid choice. Try again."
                (console (camera None None) [] []) |}).
Proof.
  apply (@cli_invalid_choice "left"
           {| self := sample_controller;
              io := console (camera None None) [] [] |}).
  cbn. intros H.
  repeat (destruct H as [H | H]; [discriminate H|]). exact H.
Defined.



End MenuLoop.

(** ** Listing the presets *)

Section Listing.

Import PTZController.

Lemma writes_stdout (texts : list string) (s : IOState) :
  stdout (writes texts s) = stdout s ++ texts.
Proof.
  revert s. induction texts as [|t texts IH]; intros s; cbn.
  - now rewrite app_nil_r.
  - unfold writes in IH. rewrite IH. cbn. now rewrite <- app_assoc.
Qed.

Lemma writes_keeps (texts : list string) (s : IOState) :
  trace (writes texts s) = trace s /\ stdin (writes texts s) = stdin s
  /\ kbd (writes texts s) = kbd s /\ env (writes texts s) = env s.
Proof.
  revert s. induction texts as [|t texts IH]; intros s; cbn.
  - repeat split.
  - unfold writes in IH. destruct (IH (write t s)) as [H1 [H2 [H3 H4]]].
    rewrite H1, H2, H3, H4. repeat split.
Qed.

(** A loop that prints one text per element writes them in order and does
    nothing else. *)
Lemma fold_prints (A : Type) (g : M World unit -> A -> M World unit)
    (f : A -> string) :
  (forall acc p w w1,
     acc w = (Ok tt, w1) ->
     g acc p w = (Ok tt, {| self := self w1; io := write (f p) (io w1) |})) ->
  forall l acc w w1,
    acc w = (Ok tt, w1) ->
    fold_left g l acc w
    = (Ok tt, {| self := self w1; io := writes (map f l) (io w1) |}).
Proof.
  intros Hg l. induction l as [|p l IH]; intros acc w w1 Hacc; cbn.
  - rewrite Hacc. now destruct w1.
  - rewrite (IH (g acc p) w _ (Hg acc p w w1 Hacc)). reflexivity.
Qed.

(** X10. Listing the presets prints one line per preset the camera
    reported, in the camera's order, after one [GetPresets] call: [run_cli]
    frames the lines with a heading and an empty line, [run_keyboard] puts
    "Listing presets..." first; with no preset, each prints its "No presets
    found." line instead.  The controller is not changed. *)
Theorem preset_listing (w : World) (l : list Preset.t) :
  env (io w) (trace (io w)) (GetPresets (Profile.token (profile (self w))))
    = Returns l ->
  let cli := ptz_controller.dispatch "8" w in
  let keyboard := ptz_control_with_keyboard.on_key "p" w in
  fst cli = Ok Continue
  /\ self (snd cli) = self w
  /\ stdout (io (snd cli))
     = stdout (io w)
         ++ match l with
            | [] => ["No presets found."]
            | _ :: _ => (nl ++ "Presets:")%string :: map preset_line l ++ [""%string]
            end
  /\ fst keyboard = Ok Continue
  /\ self (snd keyboard) = self w
  /\ stdout (io (snd keyboard))
     = stdout (io w)
         ++ "Listing presets..."
            :: match l with
               | [] => ["  No presets found."]
               | _ :: _ => map preset_line l
               end.
Proof.
  intros H. destruct w as [c [en tr out inp kb]]. cbn in H.
  cbv zeta.
  unfold ptz_controller.dispatch, ptz_control_with_keyboard.on_key.
  decode_keys. cbn [String.eqb Ascii.eqb Bool.eqb].
  unfold ptz_controller.list_presets, ptz_control_with_keyboard.list_presets,
    bind, ret, get_self, liftIO, invoke, print.
  cbn -[fold_left]. rewrite H.
  destruct l as [|p l]; cbn -[fold_left];
    [rewrite <- !app_assoc; repeat split|].
  repeat match goal with
         | |- context [fold_left ?g (p :: l) ?acc ?s] =>
             let Hg := fresh "Hg" in
             assert (forall acc' q s' s1,
                       acc' s' = (Ok tt, s1) ->
                       g acc' q s'
                       = (Ok tt, {| self := self s1;
                                    io := write (preset_line q) (io s1) |}))
               as Hg
               by (intros acc' q s' s1 E; cbv beta; rewrite E; reflexivity);
             rewrite (fold_prints g preset_line Hg (p :: l) acc s eq_refl);
             clear Hg
         end.
  cbn -[writes map]. rewrite !writes_stdout. cbn.
  rewrite <- !app_assoc. repeat split.
Qed.

Lemma preset_listing_witness :
  stdout (io (snd (ptz_controller.dispatch "8"
                     {| self := sample_controller;
                        io := console (camera None None) [] [] |})))
  = ["No presets found."%string].
Proof.
  exact (proj1 (proj2 (proj2
           (@preset_listing
              {| self := sample_controller;
                 io := console (camera None None) [] [] |} [] eq_refl)))).
Defined.

End Listing.

(** ** The menu loop ends with its input *)

Section MenuTermination.

Import PTZController.

(** Takes the next decision of the goal: the answer to a call, the list of
    presets, the next line of input or a test on it. *)
Ltac decide_next :=
  match goal with
  | |- context [match ?x with Returns _ => _ | Raises _ => _ end] =>
      let a := fresh "a" in
      destruct x as [a|?]; cbn -[fold_left] in *
  | |- context [match ?a with Some _ => _ | None => _ end] =>
      is_var a; destruct a as [[[| |?]]|]; cbn -[fold_left] in *
  | |- context [match ?x with [] => _ | _ :: _ => _ end] =>
      is_var x; destruct x as [|[?|] ?]; cbn -[fold_left] in *
  | |- context [if nonempty ?x then _ else _] =>
      destruct (nonempty x); cbn -[fold_left] in *
  end.

(** No branch of the menu hangs, and none puts anything back on standard
    input. *)
Lemma dispatch_consumes (choice : string) (w : World) :
  fst (ptz_controller.dispatch choice w) <> Pending
  /\ List.length (stdin (io (snd (ptz_controller.dispatch choice w))))
     <= List.length (stdin (io w)).
Proof.
  destruct w as [c [en tr out inp kb]].
  unfold ptz_controller.dispatch.
  repeat match goal with
         | |- context [if (choice =? ?k)%string then _ else _] =>
             destruct (choice =? k)%string
         end.
  all: unfold ptz_controller.continuous_move, ptz_controller.stop,
         ptz_controller.go_to_preset, ptz_controller.set_preset,
         ptz_controller.list_presets,
         bind, ret, get_self, set_self, liftIO, invoke, print, input.
  all: cbn -[fold_left ptz_controller._normalized_speed].
  all: repeat decide_next.
  all: try (split; [discriminate | cbn; lia]).
  destruct a as [|p l]; cbn -[fold_left]; [split; [discriminate | cbn; lia]|].
  match goal with
  | |- context [fold_left ?g (p :: l) ?acc ?s] =>
      let Hg := fresh "Hg" in
      assert (forall acc' q s' s1,
                acc' s' = (Ok tt, s1) ->
                g acc' q s'
                = (Ok tt, {| self := self s1;
                             io := write (preset_line q) (io s1) |}))
        as Hg
        by (intros acc' q s' s1 E; cbv beta; rewrite E; reflexivity);
      rewrite (fold_prints g preset_line Hg (p :: l) acc s eq_refl);
      clear Hg
  end.
  cbn -[writes map].
  match goal with
  | |- context [writes ?t ?s] =>
      destruct (writes_keeps t s) as [_ [E _]]
  end.
  rewrite E. split; [discriminate | cbn; lia].
Qed.

(** One round of the menu loop never hangs, and a round after which the
    loop goes on has read at least one line. *)
Lemma iteration_consumes (w : World) :
  fst (ptz_controller.iteration w) <> Pending
  /\ (fst (ptz_controller.iteration w) = Ok Continue ->
      List.length (stdin (io (snd (ptz_controller.iteration w))))
      < List.length (stdin (io w))).
Proof.
  destruct w as [c [en tr out inp kb]].
  unfold ptz_controller.iteration, try_except.
  unfold bind at 1. unfold bind at 1. unfold liftIO at 1. unfold input, ret.
  cbn -[ptz_controller.dispatch ptz_controller.stop].
  destruct inp as [|[line|] rest];
    cbn -[ptz_controller.dispatch ptz_controller.stop].
  - unfold_method. destruct (en tr _); cbn; split; discriminate.
  - match goal with
    | |- context [ptz_controller.dispatch ?k ?s] =>
        destruct (dispatch_consumes k s) as [H1 H2];
        destruct (ptz_controller.dispatch k s) as [r s']
    end.
    cbn in *. split; [exact H1 | intros _; lia].
  - unfold_method. destruct (en tr _); cbn; split; discriminate.
Qed.

(** X11. [run_cli] cannot loop forever on a finite input: every round of
    the menu loop reads at least one line, and the end of input ends the
    loop.  So a loop given more rounds than there are lines waiting on
    standard input always leaves, by "0", by [SystemExit] or by an
    exception. *)
Theorem cli_loop_ends_with_input (fuel : nat) (w : World) :
  List.length (stdin (io w)) < fuel ->
  fst (ptz_controller.loop fuel w) <> Pending.
Proof.
  revert w. induction fuel as [|fuel IH]; intros w H; [lia|].
  cbn [ptz_controller.loop]. unfold bind.
  destruct (iteration_consumes w) as [H1 H2].
  destruct (ptz_controller.iteration w) as [[[|]|e|] w1]; cbn in *.
  - apply IH. specialize (H2 eq_refl). lia.
  - discriminate.
  - discriminate.
  - now elim H1.
Qed.

Lemma cli_loop_ends_with_input_witness :
  fst (ptz_controller.loop 3
         {| self := sample_controller;
            io := console (camera None None) [Line "7"; Line "8"] [] |})
  <> Pending.
Proof.
  apply (@cli_loop_ends_with_input 3
           {| self := sample_controller;
              io := console (camera None None) [Line "7"; Line "8"] [] |}).
  cbn. lia.
Defined.


End MenuTermination.

(** ** The keyboard loop of [run_keyboard] *)

Section KeyboardLoop.

Import PTZController.
Local Open Scope float_scope.

(** The tests that [on_key] makes on a key that is not bound all fail. *)
Lemma unbound_key_tests (ch : ascii) :
  ~ In ch bound_keys ->
  Ascii.eqb ch "027" = false /\ Ascii.eqb ch " " = false
  /\ (decode_lower ch =? "w")%string = false
  /\ (decode_lower ch =? "s")%string = false
  /\ (decode_lower ch =? "a")%string = false
  /\ (decode_lower ch =? "d")%string = false
  /\ (decode_lower ch =? "q")%string = false
  /\ (decode_lower ch =? "e")%string = false
  /\ (decode_lower ch =? "p")%string = false
  /\ (decode_lower ch =? "g")%string = false
  /\ (decode_lower ch =? "o")%string = false.
Proof.
  destruct ch as [[] [] [] [] [] [] [] []]; intros H;
    first [ solve [vm_compute; repeat split]
          | exfalso; apply H; unfold bound_keys;
            repeat (try (left; reflexivity); right) ].
Qed.

(** X12. A key that is not bound, any byte above 127 included, makes no
    call to the camera and changes nothing; so does an arrow prefix followed
    by a byte that is none of the four arrow codes. *)
Theorem keyboard_unbound_key (ch : ascii) (w : World) :
  (~ In ch bound_keys ->
     ptz_control_with_keyboard.on_key ch w = (Ok Continue, w))
  /\ (~ In ch arrow_codes ->
     ptz_control_with_keyboard.on_arrow ch w = (Ok tt, w)).
Proof.
  split; intros H.
  - destruct (unbound_key_tests H)
      as [E1 [E2 [E3 [E4 [E5 [E6 [E7 [E8 [E9 [E10 E11]]]]]]]]]].
    unfold ptz_control_with_keyboard.on_key. cbv zeta.
    rewrite E1, E2, E3, E4, E5, E6, E7, E8, E9, E10, E11. reflexivity.
  - unfold ptz_control_with_keyboard.on_arrow.
    repeat match goal with
           | |- context [Ascii.eqb ch ?k] =>
               let E := fresh "E" in
               assert (Ascii.eqb ch k = false) as E
                 by (apply Ascii.eqb_neq; intros N; apply H; rewrite N;
                     cbn; tauto);
               rewrite E; clear E
           end.
    reflexivity.
Qed.

Lemma keyboard_unbound_key_witness :
  ptz_control_with_keyboard.on_key "x"
    {| self := sample_controller; io := console (camera None None) [] [] |}
  = (Ok Continue,
     {| self := sample_controller; io := console (camera None None) [] [] |}).
Proof.
  apply (proj1 (@keyboard_unbound_key "x"
                  {| self := sample_controller;
                     io := console (camera None None) [] [] |})).
  unfold bound_keys. cbn. intros H.
  repeat (destruct H as [H | H]; [discriminate H|]). exact H.
Defined.

(** An upper-case letter passes the tests of [on_key] as its lower-case
    letter does. *)
Lemma upper_key_tests (ch : ascii) :
  (65 <= nat_of_ascii ch <= 90)%nat ->
  decode_lower ch = decode_lower (ascii_of_nat (nat_of_ascii ch + 32))
  /\ Ascii.eqb ch "027" = false /\ Ascii.eqb ch " " = false
  /\ Ascii.eqb (ascii_of_nat (nat_of_ascii ch + 32)) "027" = false
  /\ Ascii.eqb (ascii_of_nat (nat_of_ascii ch + 32)) " " = false.
Proof.
  destruct ch as [[] [] [] [] [] [] [] []]; intros H;
    first [ solve [vm_compute; repeat split]
          | exfalso; vm_compute in H; lia ].
Qed.

(** X13. The letter keys of [run_keyboard] work in either case: an
    upper-case letter does exactly what its lower-case letter does. *)
Theorem keyboard_keys_ignore_case (ch : ascii) (w : World) :
  (65 <= nat_of_ascii ch <= 90)%nat ->
  ptz_control_with_keyboard.on_key ch w
  = ptz_control_with_keyboard.on_key (ascii_of_nat (nat_of_ascii ch + 32)) w.
Proof.
  intros H. destruct (upper_key_tests ch H) as [E1 [E2 [E3 [E4 E5]]]].
  unfold ptz_control_with_keyboard.on_key. cbv zeta.
  rewrite <- E1, E2, E3, E4, E5. reflexivity.
Qed.

Lemma keyboard_keys_ignore_case_witness :
  ptz_control_with_keyboard.on_key "D"
    {| self := sample_controller; io := console (camera None None) [] [] |}
  = ptz_control_with_keyboard.on_key "d"
      {| self := sample_controller; io := console (camera None None) [] [] |}.
Proof.
  apply (@keyboard_keys_ignore_case "D"
           {| self := sample_controller;
              io := console (camera None None) [] [] |}).
  cbn. lia.
Defined.

(** X14. While no key is waiting and the pauses return, [run_keyboard]'s
    loop never leaves: after any number of rounds it is still running, and
    all it has done is one 0.01 s pause per round; the camera has received
    nothing. *)
Theorem keyboard_idles (fuel : nat) (w : World) :
  kbd (io w) = [] ->
  (forall tr, env (io w) tr (sleep 0.01) = Returns tt) ->
  ptz_control_with_keyboard.loop fuel w
  = (Pending,
     {| self := self w;
        io := {| env := env (io w);
                 trace := trace (io w) ++ repeat idle_pause fuel;
                 stdout := stdout (io w); stdin := stdin (io w);
                 kbd := [] |} |}).
Proof.
  destruct w as [c [en tr out inp kb]]. cbn. intros -> H. revert tr.
  induction fuel as [|fuel IH]; intros tr; cbn [ptz_control_with_keyboard.loop].
  - unfold pending. cbn. now rewrite app_nil_r.
  - unfold ptz_control_with_keyboard.iteration, kbhit.
    unfold_method. rewrite H. cbn. unfold log. cbn. rewrite IH.
    rewrite <- app_assoc. reflexivity.
Qed.

Lemma keyboard_idles_witness :
  fst (ptz_control_with_keyboard.loop 5
         {| self := sample_controller;
            io := console (camera None None) [] [] |}) = Pending.
Proof.
  exact (f_equal fst
           (@keyboard_idles 5
              {| self := sample_controller;
                 io := console (camera None None) [] [] |}
              eq_refl (fun _ => eq_refl))).
Defined.

(** X15. Quitting [run_keyboard] with ESC always makes exactly two [Stop]
    calls for both axis groups and no other call: the one of the ESC branch
    and the one of the [finally] clause, which runs whether the first
    returned or raised. *)
Theorem keyboard_escape (fuel : nat) (w : World) (rest : list ascii) :
  kbd (io w) = "027"%char :: rest ->
  exists ans1 ans2 c1,
    trace (io (snd (ptz_control_with_keyboard.guarded_loop (S fuel) w)))
    = trace (io w)
        ++ [{| ev_call := stop_all (self w); ev_answer := ans1 |};
            {| ev_call := stop_all c1; ev_answer := ans2 |}]
    /\ match ans2 with
       | Raises e =>
           fst (ptz_control_with_keyboard.guarded_loop (S fuel) w) = Raise e
       | Returns _ =>
           match ans1 with
           | Raises e =>
               fst (ptz_control_with_keyboard.guarded_loop (S fuel) w)
               = if is_Exception e then Raise e
                 else match e with
                      | KeyboardInterrupt => Ok tt
                      | _ => Raise e
                      end
           | Returns _ =>
               fst (ptz_control_with_keyboard.guarded_loop (S fuel) w) = Ok tt
           end
       end.
Proof.
  destruct w as [c [en tr out inp kb]]. cbn. intros ->.
  unfold ptz_control_with_keyboard.guarded_loop, try_finally, try_except.
  cbn [ptz_control_with_keyboard.loop].
  unfold ptz_control_with_keyboard.iteration, kbhit, getch,
    ptz_control_with_keyboard.on_key.
  unfold_method.
  destruct (en tr _) as [a1|e1]; cbn.
  - destruct (en _ _) as [a2|e2]; cbn;
      do 3 eexists; rewrite <- app_assoc; split; reflexivity.
  - destruct e1; cbn;
      match goal with
      | |- context [en ?t ?c] => destruct (en t c) as [a2|e2]
      end; cbn; do 3 eexists; rewrite <- app_assoc; split; reflexivity.
Qed.

Lemma keyboard_escape_witness :
  exists ans1 ans2 c1,
    trace (io (snd (ptz_control_with_keyboard.guarded_loop 1
                      {| self := sample_controller;
                         io := console (camera None None) []
                                 ["027"%char] |})))
    = [{| ev_call := stop_all sample_controller; ev_answer := ans1 |};
       {| ev_call := stop_all c1; ev_answer := ans2 |}].
Proof.
  destruct (@keyboard_escape 0
              {| self := sample_controller;
                 io := console (camera None None) [] ["027"%char] |}
              [] eq_refl) as [ans1 [ans2 [c1 [H _]]]].
  exists ans1, ans2, c1. exact H.
Defined.

End KeyboardLoop.

(** ** Prompts, presets and quitting *)

Section Prompts.

Import PTZController.
Local Open Scope float_scope.

(** X16. Before [run_keyboard] prompts for a preset token (key G) or a
    preset name (key O), it calls [Stop] for both axis groups, so that the
    camera does not keep moving while the program waits for the line; if
    that [Stop] raises, the prompt is never shown and nothing is read. *)
Theorem keyboard_stops_before_prompt (ch : ascii) (w : World) :
  In ch ["g"; "G"; "o"; "O"]%char ->
  exists ans more,
    trace (io (snd (ptz_control_with_keyboard.on_key ch w)))
    = trace (io w)
        ++ {| ev_call := stop_all (self w); ev_answer := ans |} :: more
    /\ (forall e, ans = Raises e ->
        fst (ptz_control_with_keyboard.on_key ch w) = Raise e
        /\ more = []
        /\ stdout (io (snd (ptz_control_with_keyboard.on_key ch w)))
           = stdout (io w)
        /\ stdin (io (snd (ptz_control_with_keyboard.on_key ch w)))
           = stdin (io w)).
Proof.
  intros HIn. destruct w as [c [en tr out inp kb]]. cbn in HIn.
  repeat (destruct HIn as [<- | HIn]); try contradiction;
    unfold ptz_control_with_keyboard.on_key; decode_keys;
    cbn [String.eqb Ascii.eqb Bool.eqb];
    unfold input; unfold_method;
    (destruct (en tr _) as [a|e]; cbn;
     [| do 2 eexists; split;
        [reflexivity | intros e' E; injection E as <-; repeat split]]);
    destruct inp as [|[line|] rest]; cbn;
    try (destruct (nonempty (strip line)); cbn);
    repeat match goal with
           | |- context [match ?x with Returns _ => _ | Raises _ => _ end] =>
               destruct x as [?|?]; cbn
           | |- context [match ?a with Some _ => _ | None => _ end] =>
               is_var a; destruct a as [[[| |?]]|]; cbn
           end;
    do 2 eexists;
    (split; [rewrite <- ?app_assoc; reflexivity | intros e' E; discriminate E]).
Qed.

Lemma keyboard_stops_before_prompt_witness :
  exists ans more,
    trace (io (snd (ptz_control_with_keyboard.on_key "g"
                      {| self := sample_controller;
                         io := console (camera None None) [Line "3"] [] |})))
    = {| ev_call := stop_all sample_controller; ev_answer := ans |} :: more.
Proof.
  destruct (@keyboard_stops_before_prompt "g"
              {| self := sample_controller;
                 io := console (camera None None) [Line "3"] [] |}
              (or_introl eq_refl)) as [ans [more [H _]]].
  exists ans, more. exact H.
Defined.





(** X19. Choosing "0" in [run_cli] ends the menu loop after one [Stop] for
    both axis groups, and [run_cli] then calls [Stop] once more before it
    returns: quitting makes two [Stop] calls when the first returns, and
    one, whose exception leaves [run_cli], when it raises. *)
Theorem cli_quit (fuel : nat) (c : PTZController.t) (i : IOState)
    (line : string) (rest : list stdin_item) :
  stdin i = Line line :: rest ->
  strip line = "0"%string ->
  let run :=
    with_controller c
      (ptz_controller.loop (S fuel) ;;; ptz_controller.stop true true) i in
  exists ans1,
    match ans1 with
    | Raises e =>
        fst run = Raise e
        /\ trace (snd run)
           = trace i ++ [{| ev_call := stop_all c; ev_answer := ans1 |}]
    | Returns _ =>
        exists ans2 c1,
          trace (snd run)
          = trace i ++ [{| ev_call := stop_all c; ev_answer := ans1 |};
                        {| ev_call := stop_all c1; ev_answer := ans2 |}]
          /\ fst run = match ans2 with
                       | Raises e => Raise e
                       | Returns _ => Ok tt
                       end
    end.
Proof.
  intros Hin Hs. destruct i as [en tr out inp kb]. cbn in Hin. subst inp.
  cbv zeta. unfold with_controller. cbn [ptz_controller.loop].
  unfold ptz_controller.iteration, try_except, input, bind, ret, liftIO.
  cbn -[ptz_controller.dispatch ptz_controller.stop]. rewrite Hs.
  unfold ptz_controller.dispatch. cbn [String.eqb Ascii.eqb Bool.eqb].
  unfold_method.
  destruct (en tr _) as [a1|e1]; cbn.
  - destruct (en _ _) as [[]|e2]; cbn;
      eexists (Returns _); do 2 eexists; rewrite <- app_assoc;
      split; reflexivity.
  - exists (Raises e1). split; reflexivity.
Qed.

Lemma cli_quit_witness :
  exists ans1 ans2 c1,
    trace (snd (with_controller sample_controller
                  (ptz_controller.loop 1 ;;; ptz_controller.stop true true)
                  (console (camera None None) [Line " 0"] [])))
    = [{| ev_call := stop_all sample_controller; ev_answer := ans1 |};
       {| ev_call := stop_all c1; ev_answer := ans2 |}].
Proof.
  destruct (@cli_quit 0 sample_controller
              (console (camera None None) [Line " 0"] []) " 0" []
              eq_refl eq_refl) as [ans1 H].
  exists ans1.
  destruct ans1 as [a|e].
  - destruct H as [ans2 [c1 [H _]]]. exists ans2, c1. exact H.
  - destruct H as [H _]. vm_compute in H. discriminate H.
Defined.

End Prompts.

(** ** Construction of the controller *)

Section Construction.

Import PTZController.

(** Steps through the calls of a constructor: each call returns, or it
    raises and the goal is closed by [tac]. *)
Ltac through_setup tac :=
  unfold_init;
  destruct (wsdl_dir _) as [d|]; [destruct (nonempty d)|];
  (next_call; [|tac]);
  (next_call; [|tac]);
  (next_call; [|tac]);
  (next_call; [|tac]).



(** X21. A construction that succeeds has made exactly these calls, in
    this order: the connection, [create_media_service],
    [create_ptz_service], [GetProfiles], the four [create_type] calls, and
    then the limits query for the PTZ configuration of the first profile.
    In [ptz_controller.py] the query has returned; in
    [ptz_control_with_keyboard.py] it may have raised, and it is left out
    when the profile has no PTZ configuration. *)
Theorem init_call_sequence (config : CameraConfig) (io0 : IOState)
    (c : PTZController.t) :
  (fst (ptz_controller.__init__ config io0) = Ok c ->
     exists others ptzc o,
       Profile.PTZConfiguration (profile c) = Some ptzc
       /\ trace (snd (ptz_controller.__init__ config io0))
          = trace io0 ++ setup_log config (profile c :: others)
              ++ [{| ev_call :=
                       GetConfigurationOptions (PTZConfiguration.token ptzc);
                     ev_answer := Returns (VOptions o) |}])
  /\ (fst (ptz_control_with_keyboard.__init__ config io0) = Ok c ->
     exists others,
       match Profile.PTZConfiguration (profile c) with
       | Some ptzc =>
           exists ans,
             trace (snd (ptz_control_with_keyboard.__init__ config io0))
             = trace io0 ++ setup_log config (profile c :: others)
                 ++ [{| ev_call :=
                          GetConfigurationOptions
                            (PTZConfiguration.token ptzc);
                        ev_answer := ans |}]
       | None =>
           trace (snd (ptz_control_with_keyboard.__init__ config io0))
           = trace io0 ++ setup_log config (profile c :: others)
       end).
Proof.
  unfold setup_log.
  through_setup ltac:(split; intros H; discriminate H).
  all: destruct a2 as [|first others];
    cbn -[try_except run_local ptz_controller.read_limits
          ptz_control_with_keyboard.read_limits];
    [split; intros H; discriminate H|].
  all: next_call; [|split; intros H; discriminate H].
  all: next_call; [|split; intros H; discriminate H].
  all: next_call; [|split; intros H; discriminate H].
  all: next_call; [|split; intros H; discriminate H].
  all: rewrite keyboard_read_limits.
  all: destruct (Profile.PTZConfiguration first) as [ptzc|] eqn:Eptz;
    cbn -[try_except run_local ptz_controller.read_limits
          ptz_control_with_keyboard.read_limits].
  all: try next_call.
  all: try match goal with
           | |- context [if is_Exception ?e then _ else _] =>
               destruct (is_Exception e) eqn:?; cbn
           end.
  all: try match goal with
           | |- context [run_local default_speeds
                           (try_except (ptz_controller.read_limits ?o) _ _)
                           ?s] =>
               let sp := fresh "sp" in
               let Esp := fresh "Esp" in
               let Hsp := fresh "Hsp" in
               destruct (controller_read_limits o s) as [sp [Esp Hsp]];
               unfold ret in Esp; rewrite Esp; cbn
           end.
  all: split; intros H; try discriminate H; injection H as <-; cbn;
    try rewrite Eptz.
  all: repeat eexists; rewrite <- ?app_assoc; reflexivity.
Qed.

Lemma init_call_sequence_witness :
  (exists others ptzc o,
     Profile.PTZConfiguration (profile sample_controller) = Some ptzc
     /\ trace (snd (ptz_controller.__init__ CameraConfig_default
                      (console (camera (Some full_options) None) [] [])))
        = trace (console (camera (Some full_options) None) [] [])
            ++ setup_log CameraConfig_default
                 (profile sample_controller :: others)
            ++ [{| ev_call :=
                     GetConfigurationOptions (PTZConfiguration.token ptzc);
                   ev_answer := Returns (VOptions o) |}])
  /\ (exists others,
       match Profile.PTZConfiguration (profile sample_controller) with
       | Some ptzc =>
           exists ans,
             trace (snd (ptz_control_with_keyboard.__init__
                           CameraConfig_default
                           (console (camera (Some full_options) None) [] [])))
             = trace (console (camera (Some full_options) None) [] [])
                 ++ setup_log CameraConfig_default
                      (profile sample_controller :: others)
                 ++ [{| ev_call :=
                          GetConfigurationOptions
                            (PTZConfiguration.token ptzc);
                        ev_answer := ans |}]
       | None =>
           trace (snd (ptz_control_with_keyboard.__init__
                         CameraConfig_default
                         (console (camera (Some full_options) None) [] [])))
           = trace (console (camera (Some full_options) None) [] [])
               ++ setup_log CameraConfig_default
                    (profile sample_controller :: others)
       end).
Proof.
  split.
  - apply (proj1 (init_call_sequence CameraConfig_default
                    (console (camera (Some full_options) None) [] [])
                    sample_controller)).
    reflexivity.
  - apply (proj2 (init_call_sequence CameraConfig_default
                    (console (camera (Some full_options) None) [] [])
                    sample_controller)).
    reflexivity.
Defined.

(** Closes a case of a construction whose log ends with a call that
    raised: the constructor raised the same exception, or the case is
    excluded. *)
Ltac raised_last :=
  repeat split; intros;
  match goal with
  | H : _ ++ [_] = _ ++ [_] |- _ =>
      apply app_inj_tail in H; destruct H as [_ H];
      first [ discriminate H
            | inversion H; subst; first [ reflexivity | congruence ] ]
  end.

(** X22. Construction hides no failure of a set-up call: when the last
    call it made raised, the constructor raises that same exception.  The
    one exception is the limits query of [ptz_control_with_keyboard.py],
    which sits inside the [try]: an [Exception] it raises is caught there
    (a [KeyboardInterrupt] or [SystemExit] still propagates). *)
Theorem init_propagates_failures (config : CameraConfig) (io0 : IOState)
    (pre : list event) (c0 : call) (e : exn) :
  (trace (snd (ptz_controller.__init__ config io0))
   = pre ++ [{| ev_call := c0; ev_answer := Raises e |}] ->
   fst (ptz_controller.__init__ config io0) = Raise e)
  /\ (trace (snd (ptz_control_with_keyboard.__init__ config io0))
      = pre ++ [{| ev_call := c0; ev_answer := Raises e |}] ->
      (is_Exception e = true ->
       forall t, c0 <> GetConfigurationOptions t) ->
      fst (ptz_control_with_keyboard.__init__ config io0) = Raise e).
Proof.
  through_setup raised_last.
  all: destruct a2 as [|first others];
    cbn -[try_except run_local ptz_controller.read_limits
          ptz_control_with_keyboard.read_limits];
    [raised_last|].
  all: next_call; [|raised_last].
  all: next_call; [|raised_last].
  all: next_call; [|raised_last].
  all: next_call; [|raised_last].
  all: rewrite keyboard_read_limits.
  all: destruct (Profile.PTZConfiguration first) as [ptzc|];
    cbn -[try_except run_local ptz_controller.read_limits
          ptz_control_with_keyboard.read_limits].
  all: try next_call.
  all: try match goal with
           | |- context [if is_Exception ?e then _ else _] =>
               destruct (is_Exception e) eqn:?; cbn
           end.
  all: try match goal with
           | |- context [run_local default_speeds
                           (try_except (ptz_controller.read_limits ?o) _ _)
                           ?s] =>
               let sp := fresh "sp" in
               let Esp := fresh "Esp" in
               let Hsp := fresh "Hsp" in
               destruct (controller_read_limits o s) as [sp [Esp Hsp]];
               unfold ret in Esp; rewrite Esp; cbn
           end.
  all: try raised_last.
  all: split; intros H; [raised_last|]; intros Hex.
  all: apply app_inj_tail in H; destruct H as [_ H]; inversion H; subst.
  all: exfalso; eapply Hex; [eassumption|reflexivity].
Qed.

Lemma init_propagates_failures_witness :
  fst (ptz_controller.__init__ CameraConfig_default
         (console camera_without_limits [] []))
  = Raise (ClientError "GetConfigurationOptions failed")
  /\ fst (ptz_control_with_keyboard.__init__ CameraConfig_default
            (console camera_unreachable [] []))
     = Raise (ClientError "connection refused").
Proof.
  split.
  - apply (proj1 (init_propagates_failures CameraConfig_default
                    (console camera_without_limits [] [])
                    (removelast
                       (trace (snd (ptz_controller.__init__
                                      CameraConfig_default
                                      (console camera_without_limits [] [])))))
                    (GetConfigurationOptions "ptz_cfg_1")
                    (ClientError "GetConfigurationOptions failed"))).
    reflexivity.
  - apply (proj2 (init_propagates_failures CameraConfig_default
                    (console camera_unreachable [] [])
                    []
                    (ONVIFCamera "192.168.1.13" 80 "admin" "qazWSX((00" None)
                    (ClientError "connection refused"))).
    + reflexivity.
    + intros _ t H. discriminate H.
Defined.

End Construction.

(** ** Leaving the keyboard loop by an exception *)

Section Interrupts.

Import PTZController.

(** X23. When the loop of [run_keyboard] is left by an exception, one
    [Stop] of both axis groups follows.  A [KeyboardInterrupt] is caught: a
    message is printed and, if the [Stop] returns, [run_keyboard] ends
    normally.  Any other exception is printed nowhere and leaves
    [run_keyboard] after the [Stop]; in both cases an exception of the
    [Stop] replaces the earlier one. *)
Theorem keyboard_loop_exception (fuel : nat) (w w1 : World) (e : exn) :
  ptz_control_with_keyboard.loop fuel w = (Raise e, w1) ->
  let interrupted :=
    match e with KeyboardInterrupt => true | _ => false end in
  exists ans,
    trace (io (snd (ptz_control_with_keyboard.guarded_loop fuel w)))
    = trace (io w1) ++ [{| ev_call := stop_all (self w1); ev_answer := ans |}]
    /\ stdout (io (snd (ptz_control_with_keyboard.guarded_loop fuel w)))
       = stdout (io w1)
           ++ (if interrupted
               then [(nl ++ "KeyboardInterrupt. Stopping and exiting...")%string]
               else [])
    /\ fst (ptz_control_with_keyboard.guarded_loop fuel w)
       = match ans with
         | Raises e' => Raise e'
         | Returns _ => if interrupted then Ok tt else Raise e
         end.
Proof.
  intros H.
  unfold ptz_control_with_keyboard.guarded_loop, try_finally, try_except.
  rewrite H. destruct w1 as [c [en tr out inp kb]].
  destruct e; cbn; unfold_method;
    destruct (en tr _) as [a|e2]; cbn; eexists;
    rewrite ?app_nil_r; repeat split.
Qed.

Lemma keyboard_loop_exception_witness :
  exists ans,
    trace (io (snd (ptz_control_with_keyboard.guarded_loop 1
                      {| self := sample_controller;
                         io := console interrupted_pause [] [] |})))
    = [{| ev_call := sleep 0.01; ev_answer := Raises KeyboardInterrupt |}]
        ++ [{| ev_call := stop_all sample_controller; ev_answer := ans |}]
    /\ stdout (io (snd (ptz_control_with_keyboard.guarded_loop 1
                          {| self := sample_controller;
                             io := console interrupted_pause [] [] |})))
       = [] ++ [(nl ++ "KeyboardInterrupt. Stopping and exiting...")%string]
    /\ fst (ptz_control_with_keyboard.guarded_loop 1
              {| self := sample_controller;
                 io := console interrupted_pause [] [] |})
       = match ans with
         | Raises e' => Raise e'
         | Returns _ => Ok tt
         end.
Proof.
  exact (@keyboard_loop_exception 1
           {| self := sample_controller;
              io := console interrupted_pause [] [] |}
           (snd (ptz_control_with_keyboard.loop 1
                   {| self := sample_controller;
                      io := console interrupted_pause [] [] |}))
           KeyboardInterrupt eq_refl).
Defined.

End Interrupts.
